(** * Cartesian motion controller: motion error, target producers, update loop

    Shallow embedding of
    [cartesian_motion_controller/cartesian_motion_controller.hpp].

    Conventions of the embedding.
    - A C++ [double] is idealised as a real number ([R]): rounding is not
      modelled.  [R] has no NaN.  Where the code arrives at NaN (tf's
      [normalize] on the zero quaternion) the model has no number: the tf
      functions return [None], and the rotation the controller then stores
      is the open value [Rotation_NaN], about which nothing is known.
    - The member functions of the controller are state transformers over the
      record [CartesianMotionController]; what they send to the outside
      (published messages, warnings, calls into the base class that reach the
      solver and the hardware) is recorded in a list of [Event]s.
    - KDL, tf, boost and the ROS message types are external libraries.  Their
      plain data types and closed-form operations are written out here after
      the libraries' definitions.  The KDL routines that work with numerical
      tolerances ([GetRotAngle], [Normalize], [GetQuaternion]) and the base
      class [CartesianControllerBase] are interfaces: the controller is
      embedded over any implementation of them, and each theorem states what
      it needs from them.  What depends on the values the KDL routines
      return (the bounds of the error, the degenerate cases) is proved for
      the routines of [Reference], written after orocos_kdl. *)

From Stdlib Require Import RNsatz.
From Stdlib Require Import Reals Lra Lia ZArith List String Bool.
Import ListNotations.
Local Open Scope R_scope.

(** ** ROS time *)

(** [ros::Time]: seconds and nanoseconds. *)
Record Time := mkTime { sec : Z; nsec : Z }.

(** [ros::Duration], in seconds. *)
Definition Duration := R.

(** ** KDL frames (external library, closed-form part) *)

Module KDL.

(** [KDL::Vector]: [double data[3]]. *)
Record Vector := mkVector { x : R; y : R; z : R }.

(** [KDL::Rotation]: [double data[9]], row major; the fields carry the
    names of the arguments of the nine-argument constructor. *)
Record Rotation := mkRotation {
  Xx : R; Yx : R; Zx : R;
  Xy : R; Yy : R; Zy : R;
  Xz : R; Yz : R; Zz : R }.

(** [KDL::Frame]: rotation [M] and origin [p]. *)
Record Frame := mkFrame { M : Rotation; p : Vector }.

(** [Vector::Zero()] *)
Definition Vector_Zero : Vector := mkVector 0 0 0.

(** [Rotation::Identity()] *)
Definition Rotation_Identity : Rotation :=
  mkRotation 1 0 0
             0 1 0
             0 0 1.

(** [Frame::Identity()], also the value of a default-constructed frame. *)
Definition Frame_Identity : Frame := mkFrame Rotation_Identity Vector_Zero.

(** [operator-(const Vector&, const Vector&)] *)
Definition Vector_sub (a b : Vector) : Vector :=
  mkVector (x a - x b) (y a - y b) (z a - z b).

(** [operator*(const Vector&, double)] *)
Definition Vector_scale (a : Vector) (s : R) : Vector :=
  mkVector (x a * s) (y a * s) (z a * s).

(** [operator*(const Rotation&, const Rotation&)] *)
Definition Rotation_mul (a b : Rotation) : Rotation :=
  mkRotation
    (Xx a * Xx b + Yx a * Xy b + Zx a * Xz b)
    (Xx a * Yx b + Yx a * Yy b + Zx a * Yz b)
    (Xx a * Zx b + Yx a * Zy b + Zx a * Zz b)
    (Xy a * Xx b + Yy a * Xy b + Zy a * Xz b)
    (Xy a * Yx b + Yy a * Yy b + Zy a * Yz b)
    (Xy a * Zx b + Yy a * Zy b + Zy a * Zz b)
    (Xz a * Xx b + Yz a * Xy b + Zz a * Xz b)
    (Xz a * Yx b + Yz a * Yy b + Zz a * Yz b)
    (Xz a * Zx b + Yz a * Zy b + Zz a * Zz b).

(** [Rotation::Inverse()]: the transpose. *)
Definition Rotation_Inverse (a : Rotation) : Rotation :=
  mkRotation (Xx a) (Xy a) (Xz a)
             (Yx a) (Yy a) (Yz a)
             (Zx a) (Zy a) (Zz a).

(** [Rotation::Quaternion(x, y, z, w)]: the matrix of a quaternion; the
    arguments are used as they are given. *)
Definition Rotation_Quaternion (qx qy qz qw : R) : Rotation :=
  let x2 := qx * qx in
  let y2 := qy * qy in
  let z2 := qz * qz in
  let w2 := qw * qw in
  mkRotation
    (w2 + x2 - y2 - z2) (2 * qx * qy - 2 * qw * qz) (2 * qx * qz + 2 * qw * qy)
    (2 * qx * qy + 2 * qw * qz) (w2 - x2 + y2 - z2) (2 * qy * qz - 2 * qw * qx)
    (2 * qx * qz - 2 * qw * qy) (2 * qy * qz + 2 * qw * qx) (w2 - x2 - y2 + z2).

(** Euclidean length of a vector (the value of [Vector::Norm()]). *)
Definition Norm (v : Vector) : R :=
  sqrt (x v * x v + y v * y v + z v * z v).



(** [Rotation::RPY(roll, pitch, yaw)]: rotation about the fixed X axis by
    [roll], then the fixed Y axis by [pitch], then the fixed Z axis by
    [yaw]. *)
Definition Rotation_RPY (roll pitch yaw : R) : Rotation :=
  let ca1 := cos yaw in
  let sa1 := sin yaw in
  let cb1 := cos pitch in
  let sb1 := sin pitch in
  let cc1 := cos roll in
  let sc1 := sin roll in
  mkRotation
    (ca1 * cb1) (ca1 * sb1 * sc1 - sa1 * cc1) (ca1 * sb1 * cc1 + sa1 * sc1)
    (sa1 * cb1) (sa1 * sb1 * sc1 + ca1 * cc1) (sa1 * sb1 * cc1 - ca1 * sc1)
    (- sb1) (cb1 * sc1) (cb1 * cc1).

End KDL.

(** The KDL routines that decide by numerical tolerances.  [GetRotAngle]
    takes the axis variable it overwrites and returns the axis and the
    angle; [Normalize] returns the normalised vector and the value it
    returns in C++; [GetQuaternion] returns [(x, y, z, w)]. *)
Class KDLNumerics := {
  GetRotAngle : KDL.Rotation -> KDL.Vector -> KDL.Vector * R;
  Normalize : KDL.Vector -> KDL.Vector * R;
  GetQuaternion : KDL.Rotation -> R * R * R * R
}.

(** ** boost *)

(** [boost::algorithm::clamp(val, lo, hi)] with the default ordering:
    [(val < lo) ? lo : (hi < val) ? hi : val]. *)
Definition clamp (val lo hi : R) : R :=
  if Rlt_dec val lo then lo
  else if Rlt_dec hi val then hi
  else val.

(** ** ROS messages *)

Module geometry_msgs.

Record Point := mkPoint { point_x : R; point_y : R; point_z : R }.

Record Quaternion := mkQuaternion {
  quat_x : R; quat_y : R; quat_z : R; quat_w : R }.

Record Pose := mkPose { position : Point; orientation : Quaternion }.

(** [std_msgs::Header], without the sequence number. *)
Record Header := mkHeader { stamp : Time; frame_id : string }.

Record PoseStamped := mkPoseStamped { header : Header; pose : Pose }.

Record Vector3 := mkVector3 { v3_x : R; v3_y : R; v3_z : R }.

Record Twist := mkTwist { linear : Vector3; angular : Vector3 }.

(** A default-constructed [PoseStamped]: all numbers zero, strings empty. *)
Definition PoseStamped_default : PoseStamped :=
  mkPoseStamped (mkHeader (mkTime 0 0) EmptyString)
                (mkPose (mkPoint 0 0 0) (mkQuaternion 0 0 0 0)).

End geometry_msgs.

(** ** tf (external library) *)

Module tf.

(** [tf::Quaternion]: x, y, z, w. *)
Record Quaternion := mkQuaternion { qx : R; qy : R; qz : R; qw : R }.

(** [QUATERNION_TOLERANCE], declared [static const double ... = 0.1f]: the
    single-precision number nearest to 0.1, which is 13421773 / 2^27. *)
Definition QUATERNION_TOLERANCE : R := 13421773 / 134217728.

(** [Quaternion::length2()] *)
Definition length2 (q : Quaternion) : R :=
  qx q * qx q + qy q * qy q + qz q * qz q + qw q * qw q.

(** [Quaternion::normalize()]: [*this /= length()], that is
    [*this *= 1.0 / length()].  For the zero quaternion the code computes
    [0 * (1.0 / 0.0)], NaN, in every component: [None]. *)
Definition normalize (q : Quaternion) : option Quaternion :=
  if Req_dec_T (length2 q) 0 then None
  else
    let s := 1 / sqrt (length2 q) in
    Some (mkQuaternion (qx q * s) (qy q * s) (qz q * s) (qw q * s)).

(** [operator*(const Quaternion&, const Quaternion&)] *)
Definition mul (q1 q2 : Quaternion) : Quaternion :=
  mkQuaternion
    (qw q1 * qx q2 + qx q1 * qw q2 + qy q1 * qz q2 - qz q1 * qy q2)
    (qw q1 * qy q2 + qy q1 * qw q2 + qz q1 * qx q2 - qx q1 * qz q2)
    (qw q1 * qz q2 + qz q1 * qw q2 + qx q1 * qy q2 - qy q1 * qx q2)
    (qw q1 * qw q2 - qx q1 * qx q2 - qy q1 * qy q2 - qz q1 * qz q2).

(** [Quaternion::setRPY(roll, pitch, yaw)] *)
Definition setRPY (roll pitch yaw : R) : Quaternion :=
  let halfYaw := yaw * 0.5 in
  let halfPitch := pitch * 0.5 in
  let halfRoll := roll * 0.5 in
  let cosYaw := cos halfYaw in
  let sinYaw := sin halfYaw in
  let cosPitch := cos halfPitch in
  let sinPitch := sin halfPitch in
  let cosRoll := cos halfRoll in
  let sinRoll := sin halfRoll in
  mkQuaternion
    (sinRoll * cosPitch * cosYaw - cosRoll * sinPitch * sinYaw)
    (cosRoll * sinPitch * cosYaw + sinRoll * cosPitch * sinYaw)
    (cosRoll * cosPitch * sinYaw - sinRoll * sinPitch * cosYaw)
    (cosRoll * cosPitch * cosYaw + sinRoll * sinPitch * sinYaw).

(** [fabs(bt.length2() - 1) > QUATERNION_TOLERANCE] *)
Definition not_normalized (bt : Quaternion) : bool :=
  if Rlt_dec QUATERNION_TOLERANCE (Rabs (length2 bt - 1)) then true else false.

(** The message with the four numbers of a quaternion. *)
Definition to_msg (q : Quaternion) : geometry_msgs.Quaternion :=
  geometry_msgs.mkQuaternion (qx q) (qy q) (qz q) (qw q).

(** [quaternionMsgToTF]: copies the four numbers; when the squared length is
    further than the tolerance from 1 it warns and normalises.  Returned are
    the quaternion ([None] when its components are NaN) and the texts handed
    to [ROS_WARN]. *)
Definition quaternionMsgToTF (msg : geometry_msgs.Quaternion)
  : option Quaternion * list string :=
  let bt := mkQuaternion (geometry_msgs.quat_x msg) (geometry_msgs.quat_y msg)
                         (geometry_msgs.quat_z msg) (geometry_msgs.quat_w msg) in
  if not_normalized bt
  then (normalize bt, ["MSG to TF: Quaternion Not Properly Normalized"%string])
  else (Some bt, []).

(** [operator*] with a right factor that may be NaN: every component of the
    product is then NaN. *)
Definition mul_nan (q1 : Quaternion) (q2 : option Quaternion) : option Quaternion :=
  match q2 with
  | Some q2 => Some (mul q1 q2)
  | None => None
  end.

(** [quaternionTFToMsg]: the same check in the other direction.  On a
    quaternion of NaN the comparison [fabs(bt.length2() - 1) >
    QUATERNION_TOLERANCE] is false: no warning, and NaN is copied. *)
Definition quaternionTFToMsg (bt : option Quaternion)
  : option geometry_msgs.Quaternion * list string :=
  match bt with
  | None => (None, [])
  | Some bt =>
      if not_normalized bt
      then
        (match normalize bt with
         | Some bt_temp => Some (to_msg bt_temp)
         | None => None
         end,
         ["TF to MSG: Quaternion Not Properly Normalized"%string])
      else (Some (to_msg bt), [])
  end.

(** [tf::poseKDLToMsg]: the origin and the quaternion of the rotation. *)
Definition poseKDLToMsg `{KDLNumerics} (k : KDL.Frame) : geometry_msgs.Pose :=
  let '(x, y, z, w) := GetQuaternion (KDL.M k) in
  geometry_msgs.mkPose
    (geometry_msgs.mkPoint (KDL.x (KDL.p k)) (KDL.y (KDL.p k)) (KDL.z (KDL.p k)))
    (geometry_msgs.mkQuaternion x y z w).

End tf.

(** ** Control vectors *)

Module ctrl.

(** [ctrl::Vector6D]: six numbers, [error(0)] to [error(5)]. *)
Record Vector6D := mkVector6D {
  e0 : R; e1 : R; e2 : R; e3 : R; e4 : R; e5 : R }.

Definition Vector6D_Zero : Vector6D := mkVector6D 0 0 0 0 0 0.

(** The translational half, [error(0..2)]. *)
Definition head3 (e : Vector6D) : KDL.Vector := KDL.mkVector (e0 e) (e1 e) (e2 e).

(** The rotational half, [error(3..5)]. *)
Definition tail3 (e : Vector6D) : KDL.Vector := KDL.mkVector (e3 e) (e4 e) (e5 e).

End ctrl.

(** ** The base class

    [cartesian_controller_base::CartesianControllerBase] is not part of the
    embedded file.  Its state (the forward-dynamics solver with its internal
    model, the joint handles) is a type [Base]; what the controller calls on
    it is this interface.  The two configuration members [m_robot_base_link]
    and [m_iterations] are fields of the controller record below; the calls
    of this interface do not write them. *)
Class ControllerBase (Base : Type) := {
  (** [Base::m_forward_dynamics_solver.getEndEffectorPose()] *)
  getEndEffectorPose : Base -> KDL.Frame;
  (** [Base::starting(time)] *)
  Base_starting : Time -> Base -> Base;
  (** [Base::computeJointControlCmds(error, period)] *)
  Base_computeJointControlCmds : ctrl.Vector6D -> Duration -> Base -> Base;
  (** [Base::writeJointControlCmds()] *)
  Base_writeJointControlCmds : Base -> Base
}.

(** Which instantiation of the class template runs.  The source specialises
    [update] for [hardware_interface::VelocityJointInterface]; every other
    interface uses the primary template. *)
Inductive HardwareInterface :=
| PositionJointInterface
| VelocityJointInterface.

(** What a member function sends to the outside. *)
Inductive Event :=
| Publish (msg : geometry_msgs.PoseStamped)
    (* current_frame_pub.publish(msg) *)
| Warn (text : string)
    (* ROS_WARN(text) *)
| WarnThrottle (period : R) (text : string)
    (* ROS_WARN_STREAM_THROTTLE(period, text) *)
| CallStarting (time : Time)
    (* Base::starting(time) *)
| CallComputeJointControlCmds (error : ctrl.Vector6D) (period : Duration)
    (* Base::computeJointControlCmds(error, period) *)
| CallWriteJointControlCmds.
    (* Base::writeJointControlCmds() *)






(** The internal simulation period of [update], [ros::Duration(0.02)]. *)
Definition internal_period : Duration := 0.02.


(** ** The controller state

    The data members the embedded functions touch.  [base] is the state of
    the base class; [m_robot_base_link] and [m_iterations] are its
    configuration members. *)
Record CartesianMotionController {Base : Type} := mkController {
  base : Base;
  m_robot_base_link : string;
  m_iterations : Z;
  m_target_frame : KDL.Frame;
  m_current_frame : KDL.Frame;
  current_pose : geometry_msgs.PoseStamped }.

Arguments CartesianMotionController : clear implicits.
Arguments mkController {Base}.

(** ** Initialisation

    What [init] works with: the node handle, the base class's own [init],
    and what [init] sends to ROS. *)

Module ros.

(** [ros::NodeHandle], as far as [init] uses it: its namespace and the
    string parameters it can see ([getParam] returns [false] where this is
    [None]). *)
Record NodeHandle := mkNodeHandle {
  getNamespace : string;
  getParam : string -> option string }.

End ros.

(** The member functions handed to [subscribe]. *)
Inductive Callback :=
| TargetFrameCallback
| TargetTwistCallback.

(** What [init] sends to the outside. *)
Inductive WiringEvent :=
| CallInit
    (* Base::init(hw, nh) *)
| WarnStream (text : string)
    (* ROS_WARN_STREAM(text) *)
| Subscribe (topic : string) (queue_size : Z) (callback : Callback)
    (* nh.subscribe(topic, queue_size, callback, this) *)
| Advertise (topic : string) (queue_size : Z).
    (* nh.advertise<geometry_msgs::PoseStamped>(topic, queue_size) *)

(** [Base::init(hw, nh)]: its return value and the state it leaves. *)
Class ControllerBaseInit (Hw Base : Type) := {
  Base_init : Hw -> ros.NodeHandle -> Base -> bool * Base
}.

(** The result of [init]: the value returned, the state of the base class,
    the member [m_target_frame_topic], and what was sent. *)
Record Initialised {Base : Type} := mkInitialised {
  init_result : bool;
  init_base : Base;
  m_target_frame_topic : string;
  init_trace : list WiringEvent }.

Arguments Initialised : clear implicits.
Arguments mkInitialised {Base}.

(** ** Not a number

    [KDL::Rotation::Quaternion] of four NaN is a rotation of nine NaN.  No
    matrix over [R] is that rotation; where the controller stores it, the
    model stores [Rotation_NaN], a matrix left open: what is proved holds
    whatever it is, and nothing is proved about it. *)
Class NotANumber := {
  Rotation_NaN : KDL.Rotation
}.

(** ** An implementation of the interfaces

    The numerical routines of KDL, written along the lines of orocos_kdl's
    [frames.cpp], and a small base class.  The theorems stated over
    [KDLNumerics] and [ControllerBase] hold for every implementation; this
    one is where they are exercised, and where the theorems about bounds
    and degenerate cases are proved. *)

Module Reference.

(** [KDL::epsilon] *)
Definition epsilon : R := 0.000001.

Definition Rltb (a b : R) : bool := if Rlt_dec a b then true else false.

(** [Vector::Normalize(eps)]: below [eps] the vector becomes [(1,0,0)]. *)
Definition Normalize (v : KDL.Vector) : KDL.Vector * R :=
  let n := KDL.Norm v in
  if Rltb n epsilon then (KDL.mkVector 1 0 0, 0)
  else (KDL.mkVector (KDL.x v / n) (KDL.y v / n) (KDL.z v / n), n).

(** [Rotation::GetRotAngle(axis, eps)] *)
Definition GetRotAngle (a : KDL.Rotation) (axis : KDL.Vector) : KDL.Vector * R :=
  let eps := epsilon in
  let epsilon2 := eps * 10 in
  if Rltb (Rabs (KDL.Yx a - KDL.Xy a)) eps
     && Rltb (Rabs (KDL.Zx a - KDL.Xz a)) eps
     && Rltb (Rabs (KDL.Zy a - KDL.Yz a)) eps
  then
    if Rltb (Rabs (KDL.Yx a + KDL.Xy a)) epsilon2
       && Rltb (Rabs (KDL.Zx a + KDL.Xz a)) epsilon2
       && Rltb (Rabs (KDL.Zy a + KDL.Yz a)) epsilon2
       && Rltb (Rabs (KDL.Xx a + KDL.Yy a + KDL.Zz a - 3)) epsilon2
    then (KDL.mkVector 0 0 1, 0)
    else
      let xx := (KDL.Xx a + 1) / 2 in
      let yy := (KDL.Yy a + 1) / 2 in
      let zz := (KDL.Zz a + 1) / 2 in
      let xy := (KDL.Yx a + KDL.Xy a) / 4 in
      let xz := (KDL.Zx a + KDL.Xz a) / 4 in
      let yz := (KDL.Zy a + KDL.Yz a) / 4 in
      if Rltb yy xx && Rltb zz xx then
        let x := sqrt xx in (KDL.mkVector x (xy / x) (xz / x), PI)
      else if Rltb zz yy then
        let y := sqrt yy in (KDL.mkVector (xy / y) y (yz / y), PI)
      else
        let z := sqrt zz in (KDL.mkVector (xz / z) (yz / z) z, PI)
  else
    let f := (KDL.Xx a + KDL.Yy a + KDL.Zz a - 1) / 2 in
    let angle := acos (Rmax (-1) (Rmin 1 f)) in
    let x := KDL.Yz a - KDL.Zy a in
    let y := KDL.Zx a - KDL.Xz a in
    let z := KDL.Xy a - KDL.Yx a in
    (fst (Normalize (KDL.mkVector x y z)), angle).

(** [Rotation::GetQuaternion(x, y, z, w)] *)
Definition GetQuaternion (a : KDL.Rotation) : R * R * R * R :=
  let trace := KDL.Xx a + KDL.Yy a + KDL.Zz a in
  if Rltb 0.000000000001 trace then
    let s := 0.5 / sqrt (trace + 1) in
    ((KDL.Yz a - KDL.Zy a) * s, (KDL.Zx a - KDL.Xz a) * s,
     (KDL.Xy a - KDL.Yx a) * s, 0.25 / s)
  else if Rltb (KDL.Yy a) (KDL.Xx a) && Rltb (KDL.Zz a) (KDL.Xx a) then
    let s := 2 * sqrt (1 + KDL.Xx a - KDL.Yy a - KDL.Zz a) in
    (0.25 * s, (KDL.Yx a + KDL.Xy a) / s,
     (KDL.Zx a + KDL.Xz a) / s, (KDL.Yz a - KDL.Zy a) / s)
  else if Rltb (KDL.Zz a) (KDL.Yy a) then
    let s := 2 * sqrt (1 + KDL.Yy a - KDL.Xx a - KDL.Zz a) in
    ((KDL.Yx a + KDL.Xy a) / s, 0.25 * s,
     (KDL.Zy a + KDL.Yz a) / s, (KDL.Zx a - KDL.Xz a) / s)
  else
    let s := 2 * sqrt (1 + KDL.Zz a - KDL.Xx a - KDL.Yy a) in
    ((KDL.Zx a + KDL.Xz a) / s, (KDL.Zy a + KDL.Yz a) / s,
     0.25 * s, (KDL.Xy a - KDL.Yx a) / s).

Definition numerics : KDLNumerics :=
  Build_KDLNumerics GetRotAngle Normalize GetQuaternion.

(** A base class whose solver holds one end-effector frame and moves its
    origin by the translational error times the period. *)
Record Solver := mkSolver { end_effector : KDL.Frame }.

Definition advance (error : ctrl.Vector6D) (period : Duration) (s : Solver) : Solver :=
  let f := end_effector s in
  mkSolver (KDL.mkFrame (KDL.M f)
    (KDL.mkVector (KDL.x (KDL.p f) + ctrl.e0 error * period)
                  (KDL.y (KDL.p f) + ctrl.e1 error * period)
                  (KDL.z (KDL.p f) + ctrl.e2 error * period))).

Definition controller_base : ControllerBase Solver :=
  Build_ControllerBase Solver end_effector (fun _ s => s) advance (fun s => s).

(** States and messages at which the theorems are exercised. *)

(** A quarter turn about the Z axis. *)
Definition quarter_turn : KDL.Rotation :=
  KDL.mkRotation 0 (-1) 0
                 1 0 0
                 0 0 1.

(** A controller whose solver reports [current] and whose target is
    [target]; the snapshot is still the default-constructed message. *)
Definition controller_at (current target : KDL.Frame)
  : CartesianMotionController Solver :=
  mkController (mkSolver current) "base_link" 10 target KDL.Frame_Identity
               geometry_msgs.PoseStamped_default.

(** The same with a snapshot already published by an earlier cycle. *)
Definition controller_with_snapshot (current target : KDL.Frame)
           (snapshot : geometry_msgs.PoseStamped)
  : CartesianMotionController Solver :=
  mkController (mkSolver current) "base_link" 10 target current snapshot.

Definition pose_message (frame_id : string) (qx qy qz qw : R)
  : geometry_msgs.PoseStamped :=
  geometry_msgs.mkPoseStamped
    (geometry_msgs.mkHeader (mkTime 0 0) frame_id)
    (geometry_msgs.mkPose (geometry_msgs.mkPoint 1 2 3)
                          (geometry_msgs.mkQuaternion qx qy qz qw)).

(** *** The two routines with division and square root checked

    [checked_div] has no value where the divisor is zero and [checked_sqrt]
    none where the argument is negative (in C++ an infinity or NaN).  The
    routines below are [Normalize] and [GetRotAngle] again, every division
    and square root replaced by the checked one: [None] where the C++ code
    would divide by zero or take the root of a negative number. *)







(** The matrix that stands for the rotation of NaN where the theorems are
    exercised; any other would do. *)
Definition not_a_number : NotANumber :=
  Build_NotANumber (KDL.mkRotation (-1) (-1) (-1) (-1) (-1) (-1) (-1) (-1) (-1)).

(** A base class whose [init] fails and one whose [init] succeeds. *)
Definition failing_init : ControllerBaseInit unit Solver :=
  Build_ControllerBaseInit unit Solver (fun _ _ s => (false, s)).

Definition node_without_topic : ros.NodeHandle :=
  ros.mkNodeHandle "/my_controller" (fun _ => None).

Definition node_with_topic : ros.NodeHandle :=
  ros.mkNodeHandle "/my_controller"
    (fun key => if String.eqb key "target_frame_topic" then Some "goal"%string
                else None).

(** [controller_at] with a given iteration count. *)
Definition controller_iterating (n : Z) (current target : KDL.Frame)
  : CartesianMotionController Solver :=
  mkController (mkSolver current) "base_link" n target KDL.Frame_Identity
               geometry_msgs.PoseStamped_default.

End Reference.

(** ** The controller *)

(** [max_angle] and [max_distance] of [computeMotionError]. *)
Definition max_angle : R := 1.0.
Definition max_distance : R := 1.0.

Section Controller.

Context {Base : Type} {CB : ControllerBase Base} {KN : KDLNumerics}.

(** *** State and trace monad *)

Definition Ctl (A : Type) : Type :=
  CartesianMotionController Base -> A * CartesianMotionController Base * list Event.

Definition ret {A} (a : A) : Ctl A := fun c => (a, c, []).

Definition bind {A B} (m : Ctl A) (f : A -> Ctl B) : Ctl B :=
  fun c =>
    let '(a, c1, t1) := m c in
    let '(b, c2, t2) := f a c1 in
    (b, c2, t1 ++ t2).

Definition gets {A} (f : CartesianMotionController Base -> A) : Ctl A :=
  fun c => (f c, c, []).

Definition modify (f : CartesianMotionController Base -> CartesianMotionController Base)
  : Ctl unit :=
  fun c => (tt, f c, []).

Definition emit (e : Event) : Ctl unit := fun c => (tt, c, [e]).

(** The warnings of a library call. *)
Definition ros_warn (texts : list string) : Ctl unit :=
  fun c => (tt, c, List.map Warn texts).

Notation "x <- m ;; k" := (bind m (fun x => k))
  (at level 61, m at next level, right associativity).
Notation "m ;; k" := (bind m (fun _ => k))
  (at level 61, right associativity).

(** The three results of running a member function. *)
Definition result {A} (r : A * CartesianMotionController Base * list Event) : A :=
  fst (fst r).
Definition state_after {A} (r : A * CartesianMotionController Base * list Event)
  : CartesianMotionController Base := snd (fst r).
Definition trace {A} (r : A * CartesianMotionController Base * list Event)
  : list Event := snd r.

(** Assignments to data members. *)
Definition set_base (b : Base) : Ctl unit :=
  modify (fun c => mkController b (m_robot_base_link c) (m_iterations c)
                     (m_target_frame c) (m_current_frame c) (current_pose c)).

Definition set_m_target_frame (f : KDL.Frame) : Ctl unit :=
  modify (fun c => mkController (base c) (m_robot_base_link c) (m_iterations c)
                     f (m_current_frame c) (current_pose c)).

Definition set_m_current_frame (f : KDL.Frame) : Ctl unit :=
  modify (fun c => mkController (base c) (m_robot_base_link c) (m_iterations c)
                     (m_target_frame c) f (current_pose c)).

Definition set_current_pose (m : geometry_msgs.PoseStamped) : Ctl unit :=
  modify (fun c => mkController (base c) (m_robot_base_link c) (m_iterations c)
                     (m_target_frame c) (m_current_frame c) m).

(** *** [starting] *)

Definition starting (time : Time) : Ctl unit :=
  (* Reset simulation with real joint state *)
  b <- gets base ;;
  emit (CallStarting time) ;;
  set_base (Base_starting time b) ;;
  b <- gets base ;;
  set_m_current_frame (getEndEffectorPose b) ;;
  (* Start where we are *)
  cur <- gets m_current_frame ;;
  set_m_target_frame cur.

(** *** [computeMotionError]

    [now] is what [ros::Time::now()] returns in this call. *)
Definition computeMotionError (now : Time) : Ctl ctrl.Vector6D :=
  (* Compute motion error wrt robot_base_link *)
  b <- gets base ;;
  set_m_current_frame (getEndEffectorPose b) ;;
  cp <- gets current_pose ;;
  set_current_pose
    (geometry_msgs.mkPoseStamped
       (geometry_msgs.mkHeader now (geometry_msgs.frame_id (geometry_msgs.header cp)))
       (geometry_msgs.pose cp)) ;;
  cur <- gets m_current_frame ;;
  cp <- gets current_pose ;;
  set_current_pose
    (geometry_msgs.mkPoseStamped (geometry_msgs.header cp) (tf.poseKDLToMsg cur)) ;;
  cp <- gets current_pose ;;
  emit (Publish cp) ;;
  (* Transformation from target -> current corresponds to error = target - current *)
  tgt <- gets m_target_frame ;;
  cur <- gets m_current_frame ;;
  let error_kdl_M := KDL.Rotation_mul (KDL.M tgt) (KDL.Rotation_Inverse (KDL.M cur)) in
  let error_kdl_p := KDL.Vector_sub (KDL.p tgt) (KDL.p cur) in
  (* Use Rodrigues Vector for a compact representation of orientation errors *)
  let rot_axis := KDL.Vector_Zero in
  let '(rot_axis, angle) := GetRotAngle error_kdl_M rot_axis in
  let '(error_kdl_p, distance) := Normalize error_kdl_p in
  (* Clamp maximal tolerated error. *)
  let angle := clamp angle (- max_angle) max_angle in
  let distance := clamp distance (- max_distance) max_distance in
  (* Scale errors to allowed magnitudes *)
  let rot_axis := KDL.Vector_scale rot_axis angle in
  let error_kdl_p := KDL.Vector_scale error_kdl_p distance in
  (* Reassign values *)
  ret (ctrl.mkVector6D
         (KDL.x error_kdl_p) (KDL.y error_kdl_p) (KDL.z error_kdl_p)
         (KDL.x rot_axis) (KDL.y rot_axis) (KDL.z rot_axis)).

(** *** [update]

    [now i] is what [ros::Time::now()] returns in iteration [i]. *)

Definition computeJointControlCmds (error : ctrl.Vector6D) (period : Duration)
  : Ctl unit :=
  b <- gets base ;;
  emit (CallComputeJointControlCmds error period) ;;
  set_base (Base_computeJointControlCmds error period b).

Definition writeJointControlCmds : Ctl unit :=
  b <- gets base ;;
  emit CallWriteJointControlCmds ;;
  set_base (Base_writeJointControlCmds b).

(** [for (int i = from; i < from + remaining; ++i) body(i)] *)
Fixpoint for_loop (remaining : nat) (i : Z) (body : Z -> Ctl unit) : Ctl unit :=
  match remaining with
  | O => ret tt
  | S r => body i ;; for_loop r (i + 1)%Z body
  end.

(** The primary template. *)
Definition update_generic (now : Z -> Time) : Ctl unit :=
  n <- gets m_iterations ;;
  for_loop (Z.to_nat n) 0%Z
    (fun i =>
       (* The internal 'simulation time' is deliberately independent of the
          outer control cycle. *)
       let internal_period := internal_period in
       (* Compute the motion error = target - current. *)
       error <- computeMotionError (now i) ;;
       (* Turn Cartesian error into joint motion *)
       computeJointControlCmds error internal_period) ;;
  (* Write final commands to the hardware interface *)
  writeJointControlCmds.

(** The specialisation for [hardware_interface::VelocityJointInterface]. *)
Definition update_velocity (now : Z -> Time) : Ctl unit :=
  (* Simulate only one step forward to avoid drift. *)
  let internal_period := internal_period in
  error <- computeMotionError (now 0%Z) ;;
  computeJointControlCmds error internal_period ;;
  writeJointControlCmds.

Definition update (hw : HardwareInterface) (now : Z -> Time) : Ctl unit :=
  match hw with
  | VelocityJointInterface => update_velocity now
  | PositionJointInterface => update_generic now
  end.

(** *** [targetFrameCallback] *)

Definition wrong_frame_text (expected got : string) : string :=
  ("Got target pose in wrong reference frame. Expected: " ++ expected
     ++ " but got " ++ got)%string.

Definition targetFrameCallback (target : geometry_msgs.PoseStamped) : Ctl unit :=
  link <- gets m_robot_base_link ;;
  let frame_id := geometry_msgs.frame_id (geometry_msgs.header target) in
  if negb (String.eqb frame_id link) then
    emit (WarnThrottle 3 (wrong_frame_text link frame_id))
  else
    let o := geometry_msgs.orientation (geometry_msgs.pose target) in
    let q := geometry_msgs.position (geometry_msgs.pose target) in
    set_m_target_frame
      (KDL.mkFrame
         (KDL.Rotation_Quaternion
            (geometry_msgs.quat_x o) (geometry_msgs.quat_y o)
            (geometry_msgs.quat_z o) (geometry_msgs.quat_w o))
         (KDL.mkVector
            (geometry_msgs.point_x q) (geometry_msgs.point_y q)
            (geometry_msgs.point_z q))).

(** *** [targetTwistCallback] *)

Context {NN : NotANumber}.

(** [KDL::Rotation::Quaternion] of the four numbers of a message that may
    hold NaN. *)
Definition Rotation_Quaternion_nan (o : option geometry_msgs.Quaternion)
  : KDL.Rotation :=
  match o with
  | Some o =>
      KDL.Rotation_Quaternion
        (geometry_msgs.quat_x o) (geometry_msgs.quat_y o)
        (geometry_msgs.quat_z o) (geometry_msgs.quat_w o)
  | None => Rotation_NaN
  end.

Definition targetTwistCallback (twist : geometry_msgs.Twist) : Ctl unit :=
  cp <- gets current_pose ;;
  let target := geometry_msgs.pose cp in
  let lin := geometry_msgs.linear twist in
  let ang := geometry_msgs.angular twist in
  let position :=
    geometry_msgs.mkPoint
      (geometry_msgs.point_x (geometry_msgs.position target) + geometry_msgs.v3_x lin)
      (geometry_msgs.point_y (geometry_msgs.position target) + geometry_msgs.v3_y lin)
      (geometry_msgs.point_z (geometry_msgs.position target) + geometry_msgs.v3_z lin) in
  let '(temp1, warned1) := tf.quaternionMsgToTF (geometry_msgs.orientation target) in
  ros_warn warned1 ;;
  let temp2 :=
    tf.setRPY (geometry_msgs.v3_x ang) (geometry_msgs.v3_y ang)
              (geometry_msgs.v3_z ang) in
  let '(orientation, warned2) := tf.quaternionTFToMsg (tf.mul_nan temp2 temp1) in
  ros_warn warned2 ;;
  (* target.orientation is [orientation], target.position is [position] *)
  let o := orientation in
  let q := position in
  set_m_target_frame
    (KDL.mkFrame
       (Rotation_Quaternion_nan o)
       (KDL.mkVector
          (geometry_msgs.point_x q) (geometry_msgs.point_y q)
          (geometry_msgs.point_z q))).

(** *** The motion error in the words of the design

    Steps 1 to 6 of the motion error computer: relative rotation and
    translation, axis-angle and direction-distance extraction, clamping,
    scaling, and the six numbers put together. *)
Definition spec_motion_error (current target : KDL.Frame) : ctrl.Vector6D :=
  let error_rotation :=
    KDL.Rotation_mul (KDL.M target) (KDL.Rotation_Inverse (KDL.M current)) in
  let error_translation := KDL.Vector_sub (KDL.p target) (KDL.p current) in
  let axis := fst (GetRotAngle error_rotation KDL.Vector_Zero) in
  let angle := snd (GetRotAngle error_rotation KDL.Vector_Zero) in
  let direction := fst (Normalize error_translation) in
  let distance := snd (Normalize error_translation) in
  let angle := clamp angle (- max_angle) max_angle in
  let distance := clamp distance (- max_distance) max_distance in
  let rotation_error_vec := KDL.Vector_scale axis angle in
  let translation_error_vec := KDL.Vector_scale direction distance in
  ctrl.mkVector6D
    (KDL.x translation_error_vec) (KDL.y translation_error_vec)
    (KDL.z translation_error_vec)
    (KDL.x rotation_error_vec) (KDL.y rotation_error_vec)
    (KDL.z rotation_error_vec).

(** The orientation of a message as a rotation. *)
Definition rotation_of (o : geometry_msgs.Quaternion) : KDL.Rotation :=
  KDL.Rotation_Quaternion (geometry_msgs.quat_x o) (geometry_msgs.quat_y o)
                          (geometry_msgs.quat_z o) (geometry_msgs.quat_w o).

(** Squared length of a message orientation. *)
Definition orientation_length2 (o : geometry_msgs.Quaternion) : R :=
  geometry_msgs.quat_x o * geometry_msgs.quat_x o
  + geometry_msgs.quat_y o * geometry_msgs.quat_y o
  + geometry_msgs.quat_z o * geometry_msgs.quat_z o
  + geometry_msgs.quat_w o * geometry_msgs.quat_w o.

(** A message orientation of unit length. *)
Definition unit_orientation (o : geometry_msgs.Quaternion) : Prop :=
  orientation_length2 o = 1.


(** The origin of a message as a vector. *)
Definition vector_of (q : geometry_msgs.Point) : KDL.Vector :=
  KDL.mkVector (geometry_msgs.point_x q) (geometry_msgs.point_y q)
               (geometry_msgs.point_z q).

(** The frame of a received pose: its orientation as a rotation, its
    position as the origin. *)
Definition frame_of (m : geometry_msgs.Pose) : KDL.Frame :=
  KDL.mkFrame (rotation_of (geometry_msgs.orientation m))
              (vector_of (geometry_msgs.position m)).

(** The four numbers of a message orientation as a tf quaternion. *)
Definition of_msg (o : geometry_msgs.Quaternion) : tf.Quaternion :=
  tf.mkQuaternion (geometry_msgs.quat_x o) (geometry_msgs.quat_y o)
                  (geometry_msgs.quat_z o) (geometry_msgs.quat_w o).

(** The orientation the twist producer arrives at from the snapshot
    orientation [o], through the two conversions of tf. *)
Definition twist_orientation (roll pitch yaw : R) (o : geometry_msgs.Quaternion)
  : option geometry_msgs.Quaternion :=
  fst (tf.quaternionTFToMsg
         (tf.mul_nan (tf.setRPY roll pitch yaw) (fst (tf.quaternionMsgToTF o)))).

(** The rotation it stores. *)
Definition twist_rotation (roll pitch yaw : R) (o : geometry_msgs.Quaternion)
  : KDL.Rotation :=
  Rotation_Quaternion_nan (twist_orientation roll pitch yaw o).

(** The warnings of the two conversions, in order. *)
Definition twist_warnings (roll pitch yaw : R) (o : geometry_msgs.Quaternion)
  : list string :=
  snd (tf.quaternionMsgToTF o)
  ++ snd (tf.quaternionTFToMsg
            (tf.mul_nan (tf.setRPY roll pitch yaw) (fst (tf.quaternionMsgToTF o)))).

(** *** [stopping] *)

Definition stopping (time : Time) : Ctl unit := ret tt.

(** *** [init]

    [old_topic] is what [m_target_frame_topic] holds before the call. *)

Context {Hardware : Type} {BI : ControllerBaseInit Hardware Base}.

Definition init (hw : Hardware) (nh : ros.NodeHandle) (b : Base) (old_topic : string)
  : Initialised Base :=
  let '(_, b) := Base_init hw nh b in
  let '(topic, warned) :=
    match ros.getParam nh "target_frame_topic" with
    | Some value => (value, [])
    | None =>
        let topic := "target_frame"%string in
        (topic,
         [WarnStream
            ("Failed to load "
               ++ (ros.getNamespace nh ++ "/target_frame_topic")
               ++ " from parameter server. Will default to: "
               ++ (ros.getNamespace nh ++ "/" ++ topic))%string])
    end in
  mkInitialised true b topic
    ([CallInit] ++ warned
       ++ [Subscribe topic 3 TargetFrameCallback;
           Subscribe "/spacenav/twist" 3 TargetTwistCallback;
           Advertise "current_pose" 5]).

(** *** The loop of [update] as a recursion on the solver

    One internal step of the solver towards [target]: the motion error of
    the pose it reports, handed back to it with the internal period. *)
Definition solver_step (target : KDL.Frame) (b : Base) : Base :=
  Base_computeJointControlCmds
    (spec_motion_error (getEndEffectorPose b) target) internal_period b.

(** The snapshot published for a sampled frame. *)
Definition snapshot_of (now : Time) (frame_id : string) (f : KDL.Frame)
  : geometry_msgs.PoseStamped :=
  geometry_msgs.mkPoseStamped (geometry_msgs.mkHeader now frame_id)
                              (tf.poseKDLToMsg f).

(** What [n] iterations starting at iteration [i] with solver state [b]
    send. *)
Fixpoint iteration_events (n : nat) (i : Z) (now : Z -> Time) (frame_id : string)
         (target : KDL.Frame) (b : Base) : list Event :=
  match n with
  | O => []
  | S k =>
      Publish (snapshot_of (now i) frame_id (getEndEffectorPose b))
      :: CallComputeJointControlCmds
           (spec_motion_error (getEndEffectorPose b) target) internal_period
      :: iteration_events k (i + 1)%Z now frame_id target (solver_step target b)
  end.

(** The errors handed to the solver in a trace, in order. *)
Definition errors_of (l : list Event) : list ctrl.Vector6D :=
  List.flat_map
    (fun e => match e with
              | CallComputeJointControlCmds error _ => [error]
              | _ => []
              end) l.

(** The messages published in a trace, in order. *)
Definition published (l : list Event) : list geometry_msgs.PoseStamped :=
  List.flat_map (fun e => match e with Publish m => [m] | _ => [] end) l.

(** The controller state after [n] iterations that began at iteration
    [i]: the solver has stepped [n] times; the stored frame and the snapshot
    are those sampled in the last iteration, before its step. *)
Definition after_iterations (n : nat) (i : Z) (now : Z -> Time)
           (c : CartesianMotionController Base) : CartesianMotionController Base :=
  match n with
  | O => c
  | S k =>
      let b := Nat.iter k (solver_step (m_target_frame c)) (base c) in
      mkController (solver_step (m_target_frame c) b)
        (m_robot_base_link c) (m_iterations c) (m_target_frame c)
        (getEndEffectorPose b)
        (snapshot_of (now (i + Z.of_nat k)%Z)
           (geometry_msgs.frame_id (geometry_msgs.header (current_pose c)))
           (getEndEffectorPose b))
  end.

(** The number of passes through the loop body in [update]. *)
Definition passes (hw : HardwareInterface) (c : CartesianMotionController Base) : nat :=
  match hw with
  | VelocityJointInterface => 1%nat
  | PositionJointInterface => Z.to_nat (m_iterations c)
  end.

(** A controller state with another target. *)
Definition with_target (f : KDL.Frame) (c : CartesianMotionController Base)
  : CartesianMotionController Base :=
  mkController (base c) (m_robot_base_link c) (m_iterations c) f
               (m_current_frame c) (current_pose c).

(** The message orientation with all four signs changed. *)
Definition negated (o : geometry_msgs.Quaternion) : geometry_msgs.Quaternion :=
  geometry_msgs.mkQuaternion (- geometry_msgs.quat_x o) (- geometry_msgs.quat_y o)
                             (- geometry_msgs.quat_z o) (- geometry_msgs.quat_w o).

(** A tf quaternion with all four signs changed. *)
Definition tf_negated (q : tf.Quaternion) : tf.Quaternion :=
  tf.mkQuaternion (- tf.qx q) (- tf.qy q) (- tf.qz q) (- tf.qw q).

(** A pose message with another orientation. *)
Definition with_orientation (o : geometry_msgs.Quaternion)
           (m : geometry_msgs.PoseStamped) : geometry_msgs.PoseStamped :=
  geometry_msgs.mkPoseStamped (geometry_msgs.header m)
    (geometry_msgs.mkPose (geometry_msgs.position (geometry_msgs.pose m)) o).

(** A controller state with another orientation in the snapshot. *)
Definition with_snapshot_orientation (o : geometry_msgs.Quaternion)
           (c : CartesianMotionController Base) : CartesianMotionController Base :=
  mkController (base c) (m_robot_base_link c) (m_iterations c) (m_target_frame c)
               (m_current_frame c) (with_orientation o (current_pose c)).

(** ** Library facts *)

Lemma clamp_range (v lo hi : R) : lo <= hi -> lo <= clamp v lo hi <= hi.
Proof.
  intros Hlh. unfold clamp.
  destruct (Rlt_dec v lo); [lra|].
  destruct (Rlt_dec hi v); lra.
Qed.

Lemma clamp_in_range (v lo hi : R) : lo <= v <= hi -> clamp v lo hi = v.
Proof.
  intros [H1 H2]. unfold clamp.
  destruct (Rlt_dec v lo); [lra|].
  destruct (Rlt_dec hi v); lra.
Qed.

Lemma clamp_symmetric_abs (v m : R) : 0 <= m -> Rabs (clamp v (- m) m) <= m.
Proof.
  intros Hm. apply Rabs_le. apply clamp_range. lra.
Qed.

Lemma Norm_nonneg (v : KDL.Vector) : 0 <= KDL.Norm v.
Proof. apply sqrt_pos. Qed.

Lemma Norm_scale (v : KDL.Vector) (s : R) :
  KDL.Norm (KDL.Vector_scale v s) = KDL.Norm v * Rabs s.
Proof.
  unfold KDL.Norm, KDL.Vector_scale; simpl.
  rewrite <- (sqrt_Rsqr_abs s).
  rewrite <- sqrt_mult_alt.
  - f_equal. unfold Rsqr. ring.
  - nra.
Qed.

Lemma Vector_scale_0 (v : KDL.Vector) : KDL.Vector_scale v 0 = KDL.Vector_Zero.
Proof. unfold KDL.Vector_scale, KDL.Vector_Zero. f_equal; ring. Qed.

Lemma Vector_sub_self (v : KDL.Vector) : KDL.Vector_sub v v = KDL.Vector_Zero.
Proof. unfold KDL.Vector_sub, KDL.Vector_Zero. f_equal; ring. Qed.

Lemma length2_mul (a b : tf.Quaternion) :
  tf.length2 (tf.mul a b) = tf.length2 a * tf.length2 b.
Proof. unfold tf.length2, tf.mul; simpl. ring. Qed.

Lemma length2_setRPY (roll pitch yaw : R) :
  tf.length2 (tf.setRPY roll pitch yaw) = 1.
Proof.
  unfold tf.length2, tf.setRPY; simpl.
  pose proof (sin2_cos2 (roll * 0.5)) as Hr.
  pose proof (sin2_cos2 (pitch * 0.5)) as Hp.
  pose proof (sin2_cos2 (yaw * 0.5)) as Hy.
  unfold Rsqr in *.
  set (sr := sin (roll * 0.5)) in *. set (cr := cos (roll * 0.5)) in *.
  set (sp := sin (pitch * 0.5)) in *. set (cp := cos (pitch * 0.5)) in *.
  set (sy := sin (yaw * 0.5)) in *. set (cy := cos (yaw * 0.5)) in *.
  transitivity ((sr * sr + cr * cr) * (sp * sp + cp * cp) * (sy * sy + cy * cy)).
  - ring.
  - rewrite Hr, Hp, Hy. ring.
Qed.

Lemma Rotation_Quaternion_mul (a b : tf.Quaternion) :
  KDL.Rotation_Quaternion (tf.qx (tf.mul a b)) (tf.qy (tf.mul a b))
                          (tf.qz (tf.mul a b)) (tf.qw (tf.mul a b))
  = KDL.Rotation_mul
      (KDL.Rotation_Quaternion (tf.qx a) (tf.qy a) (tf.qz a) (tf.qw a))
      (KDL.Rotation_Quaternion (tf.qx b) (tf.qy b) (tf.qz b) (tf.qw b)).
Proof.
  unfold KDL.Rotation_Quaternion, KDL.Rotation_mul, tf.mul; simpl.
  f_equal; ring.
Qed.


Lemma cos_half (a : R) :
  cos a = cos (a * 0.5) * cos (a * 0.5) - sin (a * 0.5) * sin (a * 0.5).
Proof. replace a with (2 * (a * 0.5)) at 1 by lra. apply cos_2a. Qed.

Lemma sin_half (a : R) : sin a = 2 * sin (a * 0.5) * cos (a * 0.5).
Proof. replace a with (2 * (a * 0.5)) at 1 by lra. apply sin_2a. Qed.

Lemma Rotation_Quaternion_setRPY (roll pitch yaw : R) :
  let q := tf.setRPY roll pitch yaw in
  KDL.Rotation_Quaternion (tf.qx q) (tf.qy q) (tf.qz q) (tf.qw q)
  = KDL.Rotation_RPY roll pitch yaw.
Proof.
  unfold KDL.Rotation_Quaternion, KDL.Rotation_RPY, tf.setRPY; simpl.
  rewrite (cos_half roll), (sin_half roll), (cos_half pitch), (sin_half pitch),
    (cos_half yaw), (sin_half yaw).
  pose proof (sin2_cos2 (roll * 0.5)) as Hr.
  pose proof (sin2_cos2 (pitch * 0.5)) as Hp.
  pose proof (sin2_cos2 (yaw * 0.5)) as Hy.
  unfold Rsqr in *.
  set (sr := sin (roll * 0.5)) in *. set (cr := cos (roll * 0.5)) in *.
  set (sp := sin (pitch * 0.5)) in *. set (cp := cos (pitch * 0.5)) in *.
  set (sy := sin (yaw * 0.5)) in *. set (cy := cos (yaw * 0.5)) in *.
  clearbody sr cr sp cp sy cy.
  f_equal; nsatz.
Qed.
Lemma Rotation_mul_Identity_l (a : KDL.Rotation) :
  KDL.Rotation_mul KDL.Rotation_Identity a = a.
Proof.
  destruct a. unfold KDL.Rotation_mul, KDL.Rotation_Identity; simpl.
  f_equal; ring.
Qed.





Lemma unit_within_tolerance (n : R) :
  n = 1 -> Rabs (n - 1) <= tf.QUATERNION_TOLERANCE.
Proof.
  intros ->. replace (1 - 1) with 0 by ring. rewrite Rabs_R0.
  unfold tf.QUATERNION_TOLERANCE. lra.
Qed.

Lemma not_normalized_within (q : tf.Quaternion) :
  Rabs (tf.length2 q - 1) <= tf.QUATERNION_TOLERANCE -> tf.not_normalized q = false.
Proof.
  intros Hw. unfold tf.not_normalized.
  destruct (Rlt_dec _ _); [lra | reflexivity].
Qed.






Lemma quaternionMsgToTF_within (o : geometry_msgs.Quaternion) :
  Rabs (orientation_length2 o - 1) <= tf.QUATERNION_TOLERANCE ->
  tf.quaternionMsgToTF o = (Some (of_msg o), []).
Proof.
  intros Hw. unfold tf.quaternionMsgToTF. cbv zeta.
  rewrite not_normalized_within; [reflexivity | exact Hw].
Qed.


Lemma quaternionTFToMsg_within (q : tf.Quaternion) :
  Rabs (tf.length2 q - 1) <= tf.QUATERNION_TOLERANCE ->
  tf.quaternionTFToMsg (Some q) = (Some (tf.to_msg q), []).
Proof.
  intros Hw. unfold tf.quaternionTFToMsg.
  rewrite not_normalized_within; [reflexivity | exact Hw].
Qed.


(** ** Facts about the member functions *)

Ltac run :=
  unfold result, state_after, trace, bind, gets, modify, emit, ret,
    set_base, set_m_target_frame, set_m_current_frame, set_current_pose;
  simpl.

(** The returned error is a function of the solver's pose and the target
    alone. *)
Lemma computeMotionError_result (now : Time) (c : CartesianMotionController Base) :
  result (computeMotionError now c)
  = spec_motion_error (getEndEffectorPose (base c)) (m_target_frame c).
Proof.
  unfold computeMotionError, spec_motion_error. run.
  destruct (GetRotAngle _ _) as [axis angle].
  destruct (Normalize _) as [direction distance].
  reflexivity.
Qed.

(** What [computeMotionError] leaves behind: the sampled frame, the stamped
    snapshot; base class, configuration and target are not written. *)
Lemma computeMotionError_state (now : Time) (c : CartesianMotionController Base) :
  state_after (computeMotionError now c)
  = mkController (base c) (m_robot_base_link c) (m_iterations c)
      (m_target_frame c) (getEndEffectorPose (base c))
      (geometry_msgs.mkPoseStamped
         (geometry_msgs.mkHeader now
            (geometry_msgs.frame_id (geometry_msgs.header (current_pose c))))
         (tf.poseKDLToMsg (getEndEffectorPose (base c)))).
Proof.
  unfold computeMotionError. run.
  destruct (GetRotAngle _ _) as [axis angle].
  destruct (Normalize _) as [direction distance].
  reflexivity.
Qed.

(** One call publishes the snapshot once and sends nothing else. *)
Lemma computeMotionError_trace (now : Time) (c : CartesianMotionController Base) :
  trace (computeMotionError now c)
  = [Publish (current_pose (state_after (computeMotionError now c)))].
Proof.
  rewrite computeMotionError_state.
  unfold computeMotionError. run.
  destruct (GetRotAngle _ _) as [axis angle].
  destruct (Normalize _) as [direction distance].
  reflexivity.
Qed.

Lemma spec_motion_error_head (current target : KDL.Frame) :
  ctrl.head3 (spec_motion_error current target)
  = KDL.Vector_scale
      (fst (Normalize (KDL.Vector_sub (KDL.p target) (KDL.p current))))
      (clamp (snd (Normalize (KDL.Vector_sub (KDL.p target) (KDL.p current))))
             (- max_distance) max_distance).
Proof. reflexivity. Qed.

Lemma spec_motion_error_tail (current target : KDL.Frame) :
  ctrl.tail3 (spec_motion_error current target)
  = KDL.Vector_scale
      (fst (GetRotAngle
              (KDL.Rotation_mul (KDL.M target) (KDL.Rotation_Inverse (KDL.M current)))
              KDL.Vector_Zero))
      (clamp (snd (GetRotAngle
              (KDL.Rotation_mul (KDL.M target) (KDL.Rotation_Inverse (KDL.M current)))
              KDL.Vector_Zero))
             (- max_angle) max_angle).
Proof. reflexivity. Qed.

Lemma Vector6D_halves (e : ctrl.Vector6D) :
  ctrl.head3 e = KDL.Vector_Zero -> ctrl.tail3 e = KDL.Vector_Zero ->
  e = ctrl.Vector6D_Zero.
Proof.
  destruct e. unfold ctrl.head3, ctrl.tail3, KDL.Vector_Zero, ctrl.Vector6D_Zero.
  simpl. intros Hh Ht. injection Hh as -> -> ->. injection Ht as -> -> ->.
  reflexivity.
Qed.

Lemma clamp_0 (m : R) : 0 <= m -> clamp 0 (- m) m = 0.
Proof. intros Hm. apply clamp_in_range. lra. Qed.

Lemma max_angle_nonneg : 0 <= max_angle.
Proof. unfold max_angle. lra. Qed.

Lemma max_distance_nonneg : 0 <= max_distance.
Proof. unfold max_distance. lra. Qed.

(** A clamped scaling of a vector no longer than 1 is no longer than the
    bound. *)
Lemma Norm_scale_clamp (v : KDL.Vector) (s m : R) :
  0 <= m -> KDL.Norm v <= 1 ->
  KDL.Norm (KDL.Vector_scale v (clamp s (- m) m)) <= m.
Proof.
  intros Hm Hv. rewrite Norm_scale.
  pose proof (Norm_nonneg v) as H0.
  pose proof (clamp_symmetric_abs s m Hm) as Hc.
  pose proof (Rabs_pos (clamp s (- m) m)) as Hp.
  nra.
Qed.

(** ** Properties of the member functions *)

(** C1: for every pose the solver reports and every target pose,
    [computeMotionError] returns the error of the design: the error
    rotation is the target rotation times the inverse of the current
    rotation, the error translation is the target origin minus the
    current origin, and the six numbers are the direction scaled by the
    clamped distance followed by the axis scaled by the clamped angle. *)
Theorem computeMotionError_follows_design :
  forall (now : Time) (c : CartesianMotionController Base),
    let current := getEndEffectorPose (base c) in
    let target := m_target_frame c in
    let error_rotation :=
      KDL.Rotation_mul (KDL.M target) (KDL.Rotation_Inverse (KDL.M current)) in
    let error_translation := KDL.Vector_sub (KDL.p target) (KDL.p current) in
    let axis := fst (GetRotAngle error_rotation KDL.Vector_Zero) in
    let angle := snd (GetRotAngle error_rotation KDL.Vector_Zero) in
    let direction := fst (Normalize error_translation) in
    let distance := snd (Normalize error_translation) in
    let error := result (computeMotionError now c) in
    error = spec_motion_error current target
    /\ ctrl.head3 error
       = KDL.Vector_scale direction (clamp distance (- max_distance) max_distance)
    /\ ctrl.tail3 error
       = KDL.Vector_scale axis (clamp angle (- max_angle) max_angle)
    /\ m_current_frame (state_after (computeMotionError now c)) = current.
Proof.
  intros now c; cbv zeta.
  rewrite computeMotionError_result, computeMotionError_state.
  repeat split.
Qed.

(** Whatever the two KDL routines are: when the axis returned by
    [GetRotAngle] and the direction returned by [Normalize] are no longer
    than 1, the rotational part of the error is no longer than [max_angle]
    and the translational part no longer than [max_distance]; both bounds
    are 1.0, and angle and distance are clamped to
    [[-max_angle, max_angle]] and [[-max_distance, max_distance]]. *)
Lemma computeMotionError_bounds :
  forall (now : Time) (c : CartesianMotionController Base),
    let current := getEndEffectorPose (base c) in
    let target := m_target_frame c in
    let error_rotation :=
      KDL.Rotation_mul (KDL.M target) (KDL.Rotation_Inverse (KDL.M current)) in
    let error_translation := KDL.Vector_sub (KDL.p target) (KDL.p current) in
    let axis := fst (GetRotAngle error_rotation KDL.Vector_Zero) in
    let angle := snd (GetRotAngle error_rotation KDL.Vector_Zero) in
    let direction := fst (Normalize error_translation) in
    let distance := snd (Normalize error_translation) in
    let error := result (computeMotionError now c) in
    KDL.Norm axis <= 1 ->
    KDL.Norm direction <= 1 ->
    KDL.Norm (ctrl.tail3 error) <= max_angle
    /\ KDL.Norm (ctrl.head3 error) <= max_distance
    /\ max_angle = 1 /\ max_distance = 1
    /\ ctrl.tail3 error = KDL.Vector_scale axis (clamp angle (- 1) 1)
    /\ ctrl.head3 error = KDL.Vector_scale direction (clamp distance (- 1) 1)
    /\ - 1 <= clamp angle (- 1) 1 <= 1
    /\ - 1 <= clamp distance (- 1) 1 <= 1.
Proof.
  intros now c; cbv zeta. intros Haxis Hdir.
  rewrite computeMotionError_result.
  rewrite spec_motion_error_head, spec_motion_error_tail.
  assert (Ha : max_angle = 1) by (unfold max_angle; lra).
  assert (Hd : max_distance = 1) by (unfold max_distance; lra).
  split; [apply Norm_scale_clamp; [apply max_angle_nonneg | exact Haxis]|].
  split; [apply Norm_scale_clamp; [apply max_distance_nonneg | exact Hdir]|].
  rewrite Ha, Hd.
  repeat split; try (apply clamp_range; lra).
Qed.

(** C9: two runs of [computeMotionError] in which the solver reports the
    same end-effector pose and the target pose is the same return the same
    error vector, whatever the clock shows and whatever the other members
    hold. *)
Theorem computeMotionError_deterministic :
  forall (now1 now2 : Time) (c1 c2 : CartesianMotionController Base),
    getEndEffectorPose (base c1) = getEndEffectorPose (base c2) ->
    m_target_frame c1 = m_target_frame c2 ->
    result (computeMotionError now1 c1) = result (computeMotionError now2 c2).
Proof.
  intros now1 now2 c1 c2 Hcur Htgt.
  rewrite !computeMotionError_result, Hcur, Htgt. reflexivity.
Qed.

(** What [starting] leaves behind. *)
Lemma starting_state (time : Time) (c : CartesianMotionController Base) :
  state_after (starting time c)
  = mkController (Base_starting time (base c)) (m_robot_base_link c)
      (m_iterations c)
      (getEndEffectorPose (Base_starting time (base c)))
      (getEndEffectorPose (Base_starting time (base c)))
      (current_pose c).
Proof. reflexivity. Qed.

(** With angle 0 the rotational error vanishes, whatever the axis. *)
Lemma spec_motion_error_tail_zero (current target : KDL.Frame) :
  snd (GetRotAngle
         (KDL.Rotation_mul (KDL.M target) (KDL.Rotation_Inverse (KDL.M current)))
         KDL.Vector_Zero) = 0 ->
  ctrl.tail3 (spec_motion_error current target) = KDL.Vector_Zero.
Proof.
  intros Hangle. rewrite spec_motion_error_tail, Hangle.
  rewrite (clamp_0 _ max_angle_nonneg). apply Vector_scale_0.
Qed.

(** With distance 0 the translational error vanishes, whatever the
    direction. *)
Lemma spec_motion_error_head_zero (current target : KDL.Frame) :
  snd (Normalize (KDL.Vector_sub (KDL.p target) (KDL.p current))) = 0 ->
  ctrl.head3 (spec_motion_error current target) = KDL.Vector_Zero.
Proof.
  intros Hdist. rewrite spec_motion_error_head, Hdist.
  rewrite (clamp_0 _ max_distance_nonneg). apply Vector_scale_0.
Qed.

(** C5: [starting] sets the target pose to the end-effector pose the solver
    reports after the base class has started; and when that pose has an
    orthonormal rotation, [GetRotAngle] reports angle 0 for the identity
    and [Normalize] reports 0 for the zero vector, every later
    [computeMotionError] that finds the same target and the solver still
    reporting that pose returns the zero vector. *)
Theorem starting_seeds_target :
  forall (time now : Time) (c : CartesianMotionController Base),
    let started := state_after (starting time c) in
    let reported := getEndEffectorPose (base started) in
    m_target_frame started = reported
    /\ m_current_frame started = reported
    /\ (KDL.Rotation_mul (KDL.M reported) (KDL.Rotation_Inverse (KDL.M reported))
        = KDL.Rotation_Identity ->
        snd (GetRotAngle KDL.Rotation_Identity KDL.Vector_Zero) = 0 ->
        snd (Normalize KDL.Vector_Zero) = 0 ->
        forall c' : CartesianMotionController Base,
          m_target_frame c' = m_target_frame started ->
          getEndEffectorPose (base c') = reported ->
          result (computeMotionError now c') = ctrl.Vector6D_Zero).
Proof.
  intros time now c; cbv zeta. rewrite starting_state; simpl.
  split; [reflexivity|]. split; [reflexivity|].
  intros Hortho Hangle Hdist c' Htgt Hcur.
  rewrite computeMotionError_result, Htgt, Hcur.
  apply Vector6D_halves.
  - apply spec_motion_error_head_zero. rewrite Vector_sub_self. exact Hdist.
  - apply spec_motion_error_tail_zero. rewrite Hortho. exact Hangle.
Qed.








(** What the twist producer leaves behind: only the target is written, and
    all it sends are the warnings of the two conversions. *)
Lemma targetTwistCallback_run (twist : geometry_msgs.Twist)
      (c : CartesianMotionController Base) :
  let snapshot := geometry_msgs.pose (current_pose c) in
  let lin := geometry_msgs.linear twist in
  let ang := geometry_msgs.angular twist in
  targetTwistCallback twist c
  = (tt,
     mkController (base c) (m_robot_base_link c) (m_iterations c)
       (KDL.mkFrame
          (twist_rotation (geometry_msgs.v3_x ang) (geometry_msgs.v3_y ang)
             (geometry_msgs.v3_z ang) (geometry_msgs.orientation snapshot))
          (KDL.mkVector
             (geometry_msgs.point_x (geometry_msgs.position snapshot)
              + geometry_msgs.v3_x lin)
             (geometry_msgs.point_y (geometry_msgs.position snapshot)
              + geometry_msgs.v3_y lin)
             (geometry_msgs.point_z (geometry_msgs.position snapshot)
              + geometry_msgs.v3_z lin)))
       (m_current_frame c) (current_pose c),
     List.map Warn
       (twist_warnings (geometry_msgs.v3_x ang) (geometry_msgs.v3_y ang)
          (geometry_msgs.v3_z ang) (geometry_msgs.orientation snapshot))).
Proof.
  cbv zeta.
  unfold targetTwistCallback, twist_rotation, twist_orientation, twist_warnings.
  unfold bind at 1. unfold gets at 1.
  destruct (tf.quaternionMsgToTF _) as [temp1 warned1]. cbn [fst snd].
  destruct (tf.quaternionTFToMsg _) as [orientation warned2]. cbn [fst snd].
  unfold bind, ros_warn, set_m_target_frame, modify; simpl.
  rewrite app_nil_r, map_app. reflexivity.
Qed.

Lemma rotation_of_product (a : tf.Quaternion) (o : geometry_msgs.Quaternion) :
  rotation_of (tf.to_msg (tf.mul a (of_msg o)))
  = KDL.Rotation_mul
      (KDL.Rotation_Quaternion (tf.qx a) (tf.qy a) (tf.qz a) (tf.qw a))
      (rotation_of o).
Proof.
  unfold rotation_of, tf.to_msg, of_msg;
    cbn [geometry_msgs.quat_x geometry_msgs.quat_y geometry_msgs.quat_z
         geometry_msgs.quat_w].
  apply (Rotation_Quaternion_mul a
           (tf.mkQuaternion (geometry_msgs.quat_x o) (geometry_msgs.quat_y o)
                            (geometry_msgs.quat_z o) (geometry_msgs.quat_w o))).
Qed.


(** With a snapshot orientation within the tolerance neither conversion
    normalises or warns, and the target rotation is the product of the two
    rotations. *)
Lemma twist_within (roll pitch yaw : R) (o : geometry_msgs.Quaternion) :
  Rabs (orientation_length2 o - 1) <= tf.QUATERNION_TOLERANCE ->
  twist_orientation roll pitch yaw o
  = Some (tf.to_msg (tf.mul (tf.setRPY roll pitch yaw) (of_msg o)))
  /\ twist_rotation roll pitch yaw o
     = KDL.Rotation_mul (KDL.Rotation_RPY roll pitch yaw) (rotation_of o)
  /\ twist_warnings roll pitch yaw o = [].
Proof.
  intros Hw.
  assert (Ho : twist_orientation roll pitch yaw o
               = Some (tf.to_msg (tf.mul (tf.setRPY roll pitch yaw) (of_msg o)))
               /\ twist_warnings roll pitch yaw o = []).
  { unfold twist_orientation, twist_warnings.
    rewrite (quaternionMsgToTF_within o Hw). cbn [fst snd tf.mul_nan].
    rewrite quaternionTFToMsg_within.
    - split; reflexivity.
    - rewrite length2_mul, length2_setRPY, Rmult_1_l. exact Hw. }
  destruct Ho as [Ho Hwarn]. split; [exact Ho|]. split; [|exact Hwarn].
  unfold twist_rotation. rewrite Ho. cbn [Rotation_Quaternion_nan].
  fold (rotation_of (tf.to_msg (tf.mul (tf.setRPY roll pitch yaw) (of_msg o)))).
  rewrite rotation_of_product.
  rewrite <- Rotation_Quaternion_setRPY. reflexivity.
Qed.




Lemma twist_unit (roll pitch yaw : R) (o : geometry_msgs.Quaternion) :
  unit_orientation o ->
  twist_rotation roll pitch yaw o
  = KDL.Rotation_mul (KDL.Rotation_RPY roll pitch yaw) (rotation_of o)
  /\ twist_warnings roll pitch yaw o = [].
Proof.
  intros Hu.
  destruct (twist_within roll pitch yaw o (unit_within_tolerance _ Hu))
    as (_ & Hrot & Hwarn).
  split; assumption.
Qed.

Lemma Rotation_RPY_0 : KDL.Rotation_RPY 0 0 0 = KDL.Rotation_Identity.
Proof.
  unfold KDL.Rotation_RPY, KDL.Rotation_Identity; cbv zeta.
  rewrite cos_0, sin_0. f_equal; ring.
Qed.


(** What the absolute-pose producer does on a matching frame. *)
Lemma targetFrameCallback_accept (target : geometry_msgs.PoseStamped)
      (c : CartesianMotionController Base) :
  geometry_msgs.frame_id (geometry_msgs.header target) = m_robot_base_link c ->
  targetFrameCallback target c
  = (tt,
     mkController (base c) (m_robot_base_link c) (m_iterations c)
       (frame_of (geometry_msgs.pose target))
       (m_current_frame c) (current_pose c),
     []).
Proof.
  intros Heq. unfold targetFrameCallback. run.
  rewrite (proj2 (String.eqb_eq _ _) Heq). reflexivity.
Qed.

(** What it does on any other frame. *)
Lemma targetFrameCallback_reject (target : geometry_msgs.PoseStamped)
      (c : CartesianMotionController Base) :
  geometry_msgs.frame_id (geometry_msgs.header target) <> m_robot_base_link c ->
  targetFrameCallback target c
  = (tt, c,
     [WarnThrottle 3
        (wrong_frame_text (m_robot_base_link c)
           (geometry_msgs.frame_id (geometry_msgs.header target)))]).
Proof.
  intros Hne. unfold targetFrameCallback. run.
  rewrite (proj2 (String.eqb_neq _ _) Hne). reflexivity.
Qed.

(** C4: an absolute-pose update whose [frame_id] differs from
    [m_robot_base_link] leaves the whole controller state as it was, the
    target pose included, and sends one throttled warning and nothing
    else; an update whose [frame_id] matches replaces the target pose by
    the frame of the received pose, which depends on the received pose
    alone, and sends nothing. *)
Theorem targetFrameCallback_checks_frame :
  forall (target : geometry_msgs.PoseStamped) (c : CartesianMotionController Base),
    (geometry_msgs.frame_id (geometry_msgs.header target) <> m_robot_base_link c ->
     state_after (targetFrameCallback target c) = c
     /\ m_target_frame (state_after (targetFrameCallback target c))
        = m_target_frame c
     /\ trace (targetFrameCallback target c)
        = [WarnThrottle 3
             (wrong_frame_text (m_robot_base_link c)
                (geometry_msgs.frame_id (geometry_msgs.header target)))])
    /\ (geometry_msgs.frame_id (geometry_msgs.header target) = m_robot_base_link c ->
        m_target_frame (state_after (targetFrameCallback target c))
        = frame_of (geometry_msgs.pose target)
        /\ state_after (targetFrameCallback target c)
           = mkController (base c) (m_robot_base_link c) (m_iterations c)
               (frame_of (geometry_msgs.pose target))
               (m_current_frame c) (current_pose c)
        /\ trace (targetFrameCallback target c) = []).
Proof.
  intros target c. split.
  - intros Hne. rewrite (targetFrameCallback_reject target c Hne).
    repeat split.
  - intros Heq. rewrite (targetFrameCallback_accept target c Heq).
    repeat split.
Qed.






(** ** The loop of [update] *)

(** One pass through the loop body, in full. *)
Lemma iteration_run (now : Time) (c : CartesianMotionController Base) :
  (error <- computeMotionError now ;;
   computeJointControlCmds error internal_period) c
  = (tt,
     after_iterations 1 0 (fun _ => now) c,
     iteration_events 1 0 (fun _ => now)
       (geometry_msgs.frame_id (geometry_msgs.header (current_pose c)))
       (m_target_frame c) (base c)).
Proof.
  pose proof (computeMotionError_result now c) as Hr.
  pose proof (computeMotionError_state now c) as Hs.
  pose proof (computeMotionError_trace now c) as Ht.
  unfold result, state_after, trace in *.
  unfold bind at 1.
  destruct (computeMotionError now c) as [[error c1] t1]; simpl in Hr, Hs, Ht.
  rewrite Hs in Ht. subst error c1 t1.
  reflexivity.
Qed.

Lemma iter_shift {A : Type} (f : A -> A) (k : nat) (x : A) :
  Nat.iter k f (f x) = f (Nat.iter k f x).
Proof. induction k as [|k IH]; simpl; [reflexivity | rewrite IH; reflexivity]. Qed.

(** The whole loop, in full. *)
Lemma for_loop_run (now : Z -> Time) (n : nat) :
  forall (i : Z) (c : CartesianMotionController Base),
    for_loop n i
      (fun i => error <- computeMotionError (now i) ;;
                computeJointControlCmds error internal_period) c
    = (tt,
       after_iterations n i now c,
       iteration_events n i now
         (geometry_msgs.frame_id (geometry_msgs.header (current_pose c)))
         (m_target_frame c) (base c)).
Proof.
  induction n as [|n IH]; intros i c.
  - reflexivity.
  - cbn [for_loop]. unfold bind at 1. rewrite iteration_run.
    rewrite IH. cbn [after_iterations iteration_events Nat.iter].
    cbn [base m_target_frame current_pose m_robot_base_link m_iterations
         snapshot_of geometry_msgs.header geometry_msgs.frame_id].
    f_equal. f_equal.
    destruct n as [|k].
    + cbn [after_iterations Nat.iter]. rewrite Z.add_0_r. reflexivity.
    + cbn [after_iterations Nat.iter base m_target_frame current_pose
           m_robot_base_link m_iterations snapshot_of geometry_msgs.header
           geometry_msgs.frame_id].
      rewrite iter_shift.
      replace (i + 1 + Z.of_nat k)%Z with (i + Z.of_nat (S k))%Z by lia.
      reflexivity.
Qed.

(** [update], in full, for either instantiation. *)
Lemma update_run (hw : HardwareInterface) (now : Z -> Time)
      (c : CartesianMotionController Base) :
  let c' := after_iterations (passes hw c) 0 now c in
  update hw now c
  = (tt,
     mkController (Base_writeJointControlCmds (base c')) (m_robot_base_link c')
       (m_iterations c') (m_target_frame c') (m_current_frame c') (current_pose c'),
     iteration_events (passes hw c) 0 now
       (geometry_msgs.frame_id (geometry_msgs.header (current_pose c)))
       (m_target_frame c) (base c)
     ++ [CallWriteJointControlCmds]).
Proof.
  cbv zeta. destruct hw; unfold update, passes.
  - unfold update_generic. unfold bind at 1. unfold gets at 1.
    unfold bind at 1. rewrite for_loop_run.
    unfold writeJointControlCmds. run. reflexivity.
  - unfold update_velocity. cbv zeta.
    pose proof (iteration_run (now 0%Z) c) as Hit.
    unfold bind at 1 in Hit. unfold bind at 1.
    destruct (computeMotionError (now 0%Z) c) as [[error c1] t1].
    unfold bind at 1.
    destruct (computeJointControlCmds error internal_period c1) as [[u c2] t2].
    injection Hit as Hu Hc2 Ht.
    unfold writeJointControlCmds. run.
    rewrite app_assoc, Ht. subst c2.
    reflexivity.
Qed.

Lemma after_iterations_base (n : nat) (i : Z) (now : Z -> Time)
      (c : CartesianMotionController Base) :
  base (after_iterations n i now c)
  = Nat.iter n (solver_step (m_target_frame c)) (base c).
Proof. destruct n; reflexivity. Qed.

Lemma errors_of_app (l1 l2 : list Event) :
  errors_of (l1 ++ l2) = errors_of l1 ++ errors_of l2.
Proof. unfold errors_of. apply flat_map_app. Qed.

Lemma published_app (l1 l2 : list Event) :
  published (l1 ++ l2) = published l1 ++ published l2.
Proof. unfold published. apply flat_map_app. Qed.

Lemma errors_of_iteration_events (now : Z -> Time) (frame_id : string)
      (target : KDL.Frame) (n : nat) :
  forall (i : Z) (b : Base),
    errors_of (iteration_events n i now frame_id target b)
    = List.map
        (fun k => spec_motion_error
                    (getEndEffectorPose (Nat.iter k (solver_step target) b)) target)
        (List.seq 0 n).
Proof.
  induction n as [|n IH]; intros i b.
  - reflexivity.
  - cbn [iteration_events]. unfold errors_of at 1. cbn [flat_map app].
    fold (errors_of (iteration_events n (i + 1)%Z now frame_id target
                       (solver_step target b))).
    rewrite IH. cbn [List.seq List.map Nat.iter]. f_equal.
    rewrite <- seq_shift, map_map.
    apply map_ext. intros k. cbn [Nat.iter]. rewrite iter_shift. reflexivity.
Qed.

Lemma published_iteration_events (now : Z -> Time) (frame_id : string)
      (target : KDL.Frame) (n : nat) :
  forall (i : Z) (b : Base),
    published (iteration_events n i now frame_id target b)
    = List.map
        (fun k => snapshot_of (now (i + Z.of_nat k)%Z) frame_id
                    (getEndEffectorPose (Nat.iter k (solver_step target) b)))
        (List.seq 0 n).
Proof.
  induction n as [|n IH]; intros i b.
  - reflexivity.
  - cbn [iteration_events]. unfold published at 1. cbn [flat_map app].
    fold (published (iteration_events n (i + 1)%Z now frame_id target
                       (solver_step target b))).
    rewrite IH. cbn [List.seq List.map Nat.iter]. rewrite Z.add_0_r. f_equal.
    rewrite <- seq_shift, map_map.
    apply map_ext. intros k. cbn [Nat.iter]. rewrite iter_shift.
    replace (i + 1 + Z.of_nat k)%Z with (i + Z.of_nat (S k))%Z by lia.
    reflexivity.
Qed.

(** The errors one call of [update] hands to the solver. *)
Lemma update_errors (hw : HardwareInterface) (now : Z -> Time)
      (c : CartesianMotionController Base) :
  errors_of (trace (update hw now c))
  = List.map
      (fun k => spec_motion_error
                  (getEndEffectorPose
                     (Nat.iter k (solver_step (m_target_frame c)) (base c)))
                  (m_target_frame c))
      (List.seq 0 (passes hw c)).
Proof.
  rewrite update_run; cbv zeta. unfold trace; cbn [snd].
  rewrite errors_of_app, errors_of_iteration_events.
  cbn [errors_of flat_map]. apply app_nil_r.
Qed.

(** X1: in one call of [update] the solver advances by as many internal
    steps as the loop has passes, each step fed with the motion error of the
    pose the solver reported just before it, towards the target the call
    found; the joint commands are written after the last step.  The errors
    handed to the solver are, in order, the motion errors of the poses after
    0, 1, 2, ... steps. *)
Theorem update_solver_steps :
  forall (hw : HardwareInterface) (now : Z -> Time)
         (c : CartesianMotionController Base),
    let n := passes hw c in
    let step := solver_step (m_target_frame c) in
    base (state_after (update hw now c))
    = Base_writeJointControlCmds (Nat.iter n step (base c))
    /\ errors_of (trace (update hw now c))
       = List.map
           (fun k => spec_motion_error
                       (getEndEffectorPose (Nat.iter k step (base c)))
                       (m_target_frame c))
           (List.seq 0 n).
Proof.
  intros hw now c; cbv zeta. split; [|apply update_errors].
  rewrite update_run; cbv zeta.
  unfold state_after; cbn [fst snd base].
  rewrite after_iterations_base. reflexivity.
Qed.

(** X2: one call of [update] publishes one snapshot per pass; the k-th
    carries the clock reading of pass k, the frame id the snapshot had
    before the call, and the pose the solver reported after k steps. *)
Theorem update_publishes :
  forall (hw : HardwareInterface) (now : Z -> Time)
         (c : CartesianMotionController Base),
    published (trace (update hw now c))
    = List.map
        (fun k =>
           snapshot_of (now (Z.of_nat k))
             (geometry_msgs.frame_id (geometry_msgs.header (current_pose c)))
             (getEndEffectorPose
                (Nat.iter k (solver_step (m_target_frame c)) (base c))))
        (List.seq 0 (passes hw c)).
Proof.
  intros hw now c. rewrite update_run; cbv zeta.
  unfold trace; cbn [snd].
  rewrite published_app, published_iteration_events.
  cbn [published flat_map]. apply app_nil_r.
Qed.

(** X3: [update] never writes the target pose, the base frame name or the
    iteration count, and never changes the frame id of the snapshot. *)
Theorem update_keeps_target :
  forall (hw : HardwareInterface) (now : Z -> Time)
         (c : CartesianMotionController Base),
    let after := state_after (update hw now c) in
    m_target_frame after = m_target_frame c
    /\ m_robot_base_link after = m_robot_base_link c
    /\ m_iterations after = m_iterations c
    /\ geometry_msgs.frame_id (geometry_msgs.header (current_pose after))
       = geometry_msgs.frame_id (geometry_msgs.header (current_pose c)).
Proof.
  intros hw now c; cbv zeta. rewrite update_run; cbv zeta.
  unfold state_after; cbn [fst snd].
  destruct (passes hw c); repeat split.
Qed.

(** X4: with an iteration count of zero or less the primary template of
    [update] samples nothing, publishes nothing and steps the solver not at
    all, yet it writes the joint commands; stored frame and snapshot stay
    as they were. *)
Theorem update_without_iterations :
  forall (now : Z -> Time) (c : CartesianMotionController Base),
    (m_iterations c <= 0)%Z ->
    update PositionJointInterface now c
    = (tt,
       mkController (Base_writeJointControlCmds (base c)) (m_robot_base_link c)
         (m_iterations c) (m_target_frame c) (m_current_frame c) (current_pose c),
       [CallWriteJointControlCmds]).
Proof.
  intros now c Hn. rewrite update_run; cbv zeta.
  unfold passes. replace (Z.to_nat (m_iterations c)) with 0%nat by lia.
  reflexivity.
Qed.

(** X5: when [update] makes at least one pass, the frame it leaves in
    [m_current_frame] and in the snapshot is the one sampled in the last
    pass, that is before the last solver step: the stored pose is one
    internal step behind the solver. *)
Theorem update_stores_frame_before_last_step :
  forall (hw : HardwareInterface) (now : Z -> Time)
         (c : CartesianMotionController Base) (k : nat),
    passes hw c = S k ->
    let b := Nat.iter k (solver_step (m_target_frame c)) (base c) in
    let after := state_after (update hw now c) in
    m_current_frame after = getEndEffectorPose b
    /\ current_pose after
       = snapshot_of (now (Z.of_nat k))
           (geometry_msgs.frame_id (geometry_msgs.header (current_pose c)))
           (getEndEffectorPose b)
    /\ base after
       = Base_writeJointControlCmds (solver_step (m_target_frame c) b).
Proof.
  intros hw now c k Hk; cbv zeta. rewrite update_run; cbv zeta.
  rewrite Hk. unfold state_after; cbn [fst snd after_iterations].
  repeat split.
Qed.

(** The motion error of a pose against itself. *)
Lemma spec_motion_error_self (f : KDL.Frame) :
  KDL.Rotation_mul (KDL.M f) (KDL.Rotation_Inverse (KDL.M f)) = KDL.Rotation_Identity ->
  snd (GetRotAngle KDL.Rotation_Identity KDL.Vector_Zero) = 0 ->
  snd (Normalize KDL.Vector_Zero) = 0 ->
  spec_motion_error f f = ctrl.Vector6D_Zero.
Proof.
  intros Hortho Hangle Hdist. apply Vector6D_halves.
  - apply spec_motion_error_head_zero. rewrite Vector_sub_self. exact Hdist.
  - apply spec_motion_error_tail_zero. rewrite Hortho. exact Hangle.
Qed.

(** X6: when the solver reports the target pose, that pose has an
    orthonormal rotation, the KDL routines report angle 0 for the identity
    and length 0 for the zero vector, and the solver keeps its pose on a
    zero error, then [update] hands the solver nothing but zero errors and
    the solver still reports the target pose when the joint commands are
    written. *)
Theorem update_holds_at_target :
  forall (hw : HardwareInterface) (now : Z -> Time)
         (c : CartesianMotionController Base),
    let target := m_target_frame c in
    getEndEffectorPose (base c) = target ->
    KDL.Rotation_mul (KDL.M target) (KDL.Rotation_Inverse (KDL.M target))
    = KDL.Rotation_Identity ->
    snd (GetRotAngle KDL.Rotation_Identity KDL.Vector_Zero) = 0 ->
    snd (Normalize KDL.Vector_Zero) = 0 ->
    (forall b : Base,
        getEndEffectorPose b = target ->
        getEndEffectorPose
          (Base_computeJointControlCmds ctrl.Vector6D_Zero internal_period b)
        = target) ->
    Forall (fun error => error = ctrl.Vector6D_Zero)
           (errors_of (trace (update hw now c)))
    /\ getEndEffectorPose
         (Nat.iter (passes hw c) (solver_step target) (base c)) = target.
Proof.
  intros hw now c target. subst target.
  set (target := m_target_frame c).
  intros Hat Hortho Hangle Hdist Hstay.
  assert (Hiter : forall k,
             getEndEffectorPose (Nat.iter k (solver_step target) (base c)) = target).
  { induction k as [|k IH]; [exact Hat|].
    rewrite Nat.iter_succ. unfold solver_step at 1. rewrite IH.
    rewrite (spec_motion_error_self target Hortho Hangle Hdist).
    apply Hstay. exact IH. }
  split; [|apply Hiter].
  rewrite update_errors. fold target.
  apply Forall_forall. intros error Hin.
  apply in_map_iff in Hin. destruct Hin as (k & <- & _).
  rewrite Hiter.
  apply spec_motion_error_self; assumption.
Qed.

(** ** The producers in sequence *)

Lemma with_target_self (c : CartesianMotionController Base) :
  with_target (m_target_frame c) c = c.
Proof. destruct c; reflexivity. Qed.

(** The twist producer does not read the target. *)
Lemma targetTwistCallback_with_target (f : KDL.Frame) (twist : geometry_msgs.Twist)
      (c : CartesianMotionController Base) :
  targetTwistCallback twist (with_target f c) = targetTwistCallback twist c.
Proof. rewrite !targetTwistCallback_run. reflexivity. Qed.

(** Either producer changes the target at most. *)
Lemma targetTwistCallback_writes_target (twist : geometry_msgs.Twist)
      (c : CartesianMotionController Base) :
  state_after (targetTwistCallback twist c)
  = with_target (m_target_frame (state_after (targetTwistCallback twist c))) c.
Proof. rewrite targetTwistCallback_run. reflexivity. Qed.

Lemma targetFrameCallback_writes_target (target : geometry_msgs.PoseStamped)
      (c : CartesianMotionController Base) :
  state_after (targetFrameCallback target c)
  = with_target (m_target_frame (state_after (targetFrameCallback target c))) c.
Proof.
  destruct (string_dec (geometry_msgs.frame_id (geometry_msgs.header target))
                       (m_robot_base_link c)) as [Heq|Hne].
  - rewrite (targetFrameCallback_accept target c Heq). reflexivity.
  - rewrite (targetFrameCallback_reject target c Hne).
    unfold state_after; cbn [fst snd]. symmetry. apply with_target_self.
Qed.

Lemma targetFrameCallback_with_target (f : KDL.Frame)
      (target : geometry_msgs.PoseStamped) (c : CartesianMotionController Base) :
  geometry_msgs.frame_id (geometry_msgs.header target) = m_robot_base_link c ->
  state_after (targetFrameCallback target (with_target f c))
  = state_after (targetFrameCallback target c).
Proof.
  intros Heq.
  rewrite (targetFrameCallback_accept target c Heq).
  rewrite (targetFrameCallback_accept target (with_target f c) Heq).
  reflexivity.
Qed.

Lemma starting_with_target (f : KDL.Frame) (time : Time)
      (c : CartesianMotionController Base) :
  starting time (with_target f c) = starting time c.
Proof. reflexivity. Qed.

(** X7: the last producer wins, and nothing of an earlier update is left.
    A twist after another twist, or after a pose update (taken or refused),
    gives what the twist alone gives, warnings included: twists are applied
    to the snapshot, they do not add up.  A pose update in the base frame
    after a twist or after another pose update gives what it gives alone. *)
Theorem last_producer_wins :
  forall (c : CartesianMotionController Base)
         (t1 t2 : geometry_msgs.Twist) (m1 m2 : geometry_msgs.PoseStamped),
    targetTwistCallback t2 (state_after (targetTwistCallback t1 c))
    = targetTwistCallback t2 c
    /\ targetTwistCallback t2 (state_after (targetFrameCallback m1 c))
       = targetTwistCallback t2 c
    /\ (geometry_msgs.frame_id (geometry_msgs.header m2) = m_robot_base_link c ->
        state_after (targetFrameCallback m2 (state_after (targetTwistCallback t1 c)))
        = state_after (targetFrameCallback m2 c)
        /\ state_after (targetFrameCallback m2 (state_after (targetFrameCallback m1 c)))
           = state_after (targetFrameCallback m2 c)).
Proof.
  intros c t1 t2 m1 m2.
  split; [|split].
  - rewrite targetTwistCallback_writes_target.
    apply targetTwistCallback_with_target.
  - rewrite targetFrameCallback_writes_target.
    apply targetTwistCallback_with_target.
  - intros Heq. split.
    + rewrite (targetTwistCallback_writes_target t1 c).
      apply targetFrameCallback_with_target. exact Heq.
    + rewrite (targetFrameCallback_writes_target m1 c).
      apply targetFrameCallback_with_target. exact Heq.
Qed.

(** X8: [starting] discards every target set before it: whatever pose
    updates and twists arrived since [init], after [starting] the controller
    is in the state it would be in without them, with the target at the
    pose the solver reports. *)
Theorem starting_discards_earlier_targets :
  forall (time : Time) (c : CartesianMotionController Base)
         (m1 : geometry_msgs.PoseStamped) (t1 : geometry_msgs.Twist),
    let before := state_after (targetTwistCallback t1
                                 (state_after (targetFrameCallback m1 c))) in
    state_after (starting time before) = state_after (starting time c)
    /\ state_after (starting time (state_after (targetFrameCallback m1 c)))
       = state_after (starting time c)
    /\ m_target_frame (state_after (starting time before))
       = getEndEffectorPose (Base_starting time (base c)).
Proof.
  intros time c m1 t1; cbv zeta.
  rewrite (targetTwistCallback_writes_target t1).
  rewrite starting_with_target.
  rewrite (targetFrameCallback_writes_target m1 c).
  rewrite starting_with_target.
  repeat split.
Qed.

(** X9: a twist that arrives after a control cycle is applied to the pose
    the solver reported in that cycle: when [GetQuaternion] returns for the
    sampled rotation a unit quaternion whose matrix is that rotation, the
    new target has the sampled origin plus the linear part and the
    roll-pitch-yaw rotation of the angular part times the sampled rotation;
    the target of before plays no part.  A zero twist puts the target at the
    sampled pose. *)
Theorem twist_after_cycle :
  forall (now : Time) (twist : geometry_msgs.Twist)
         (c : CartesianMotionController Base) (x y z w : R),
    let sampled := getEndEffectorPose (base c) in
    let lin := geometry_msgs.linear twist in
    let ang := geometry_msgs.angular twist in
    let after :=
      state_after (targetTwistCallback twist
                     (state_after (computeMotionError now c))) in
    GetQuaternion (KDL.M sampled) = (x, y, z, w) ->
    x * x + y * y + z * z + w * w = 1 ->
    KDL.Rotation_Quaternion x y z w = KDL.M sampled ->
    m_target_frame after
    = KDL.mkFrame
        (KDL.Rotation_mul
           (KDL.Rotation_RPY (geometry_msgs.v3_x ang) (geometry_msgs.v3_y ang)
                             (geometry_msgs.v3_z ang))
           (KDL.M sampled))
        (KDL.mkVector (KDL.x (KDL.p sampled) + geometry_msgs.v3_x lin)
                      (KDL.y (KDL.p sampled) + geometry_msgs.v3_y lin)
                      (KDL.z (KDL.p sampled) + geometry_msgs.v3_z lin))
    /\ (twist = geometry_msgs.mkTwist (geometry_msgs.mkVector3 0 0 0)
                                      (geometry_msgs.mkVector3 0 0 0) ->
        m_target_frame after = sampled).
Proof.
  intros now twist c x y z w; cbv zeta. intros Hq Hunit Hmat.
  rewrite computeMotionError_state, targetTwistCallback_run; cbv zeta.
  unfold state_after;
    cbn [fst snd m_target_frame current_pose geometry_msgs.pose].
  unfold tf.poseKDLToMsg. rewrite Hq.
  cbn [geometry_msgs.orientation geometry_msgs.position geometry_msgs.point_x
       geometry_msgs.point_y geometry_msgs.point_z].
  assert (Hu : unit_orientation (geometry_msgs.mkQuaternion x y z w)) by exact Hunit.
  assert (Hrot : rotation_of (geometry_msgs.mkQuaternion x y z w)
                 = KDL.M (getEndEffectorPose (base c))) by exact Hmat.
  assert (Htarget :
            forall roll pitch yaw,
              twist_rotation roll pitch yaw (geometry_msgs.mkQuaternion x y z w)
              = KDL.Rotation_mul (KDL.Rotation_RPY roll pitch yaw)
                                 (KDL.M (getEndEffectorPose (base c)))).
  { intros roll pitch yaw.
    rewrite (proj1 (twist_unit roll pitch yaw _ Hu)), Hrot. reflexivity. }
  rewrite Htarget. split; [reflexivity|].
  intros ->.
  cbn [geometry_msgs.linear geometry_msgs.angular geometry_msgs.v3_x
       geometry_msgs.v3_y geometry_msgs.v3_z].
  rewrite Rotation_RPY_0, Rotation_mul_Identity_l.
  destruct (getEndEffectorPose (base c)) as [M0 [px py pz]]; cbn [KDL.M KDL.p KDL.x KDL.y KDL.z].
  f_equal. f_equal; ring.
Qed.

(** ** Size of the error *)

Lemma clamp_nonneg (v m : R) : 0 <= v -> 0 <= m -> clamp v (- m) m = Rmin v m.
Proof.
  intros Hv Hm. unfold clamp, Rmin.
  destruct (Rlt_dec v (- m)); [lra|].
  destruct (Rlt_dec m v); destruct (Rle_dec v m); lra.
Qed.

Lemma Norm_scale_unit (v : KDL.Vector) (s m : R) :
  KDL.Norm v = 1 -> 0 <= s -> 0 <= m ->
  KDL.Norm (KDL.Vector_scale v (clamp s (- m) m)) = Rmin s m.
Proof.
  intros Hv Hs Hm. rewrite Norm_scale, Hv, (clamp_nonneg s m Hs Hm).
  rewrite Rabs_right; [ring|].
  unfold Rmin. destruct (Rle_dec s m); lra.
Qed.

(** X10: when [GetRotAngle] returns a unit axis with an angle that is not
    negative and [Normalize] a unit direction with a length that is not
    negative, the rotational half of the error has the length
    min(angle, max_angle) and the translational half the length
    min(distance, max_distance); up to the bound the halves are axis times
    angle and direction times distance unchanged, so that the translational
    half is the offset target minus current itself when direction times
    distance gives the offset back. *)
Theorem computeMotionError_magnitudes :
  forall (now : Time) (c : CartesianMotionController Base),
    let current := getEndEffectorPose (base c) in
    let target := m_target_frame c in
    let error_rotation :=
      KDL.Rotation_mul (KDL.M target) (KDL.Rotation_Inverse (KDL.M current)) in
    let error_translation := KDL.Vector_sub (KDL.p target) (KDL.p current) in
    let axis := fst (GetRotAngle error_rotation KDL.Vector_Zero) in
    let angle := snd (GetRotAngle error_rotation KDL.Vector_Zero) in
    let direction := fst (Normalize error_translation) in
    let distance := snd (Normalize error_translation) in
    let error := result (computeMotionError now c) in
    KDL.Norm axis = 1 -> 0 <= angle ->
    KDL.Norm direction = 1 -> 0 <= distance ->
    KDL.Norm (ctrl.tail3 error) = Rmin angle max_angle
    /\ KDL.Norm (ctrl.head3 error) = Rmin distance max_distance
    /\ (angle <= max_angle -> ctrl.tail3 error = KDL.Vector_scale axis angle)
    /\ (distance <= max_distance ->
        ctrl.head3 error = KDL.Vector_scale direction distance)
    /\ (distance <= max_distance ->
        KDL.Vector_scale direction distance = error_translation ->
        ctrl.head3 error = error_translation).
Proof.
  intros now c; cbv zeta. intros Haxis Hangle Hdir Hdist.
  rewrite computeMotionError_result.
  rewrite spec_motion_error_head, spec_motion_error_tail.
  pose proof max_angle_nonneg as Ha. pose proof max_distance_nonneg as Hd.
  split; [apply Norm_scale_unit; assumption|].
  split; [apply Norm_scale_unit; assumption|].
  split; [|split].
  - intros Hle. rewrite clamp_in_range by lra. reflexivity.
  - intros Hle. rewrite clamp_in_range by lra. reflexivity.
  - intros Hle Hback. rewrite clamp_in_range by lra. exact Hback.
Qed.

(** ** Sign of the quaternion *)

Lemma rotation_of_negated (o : geometry_msgs.Quaternion) :
  rotation_of (negated o) = rotation_of o.
Proof.
  unfold rotation_of, negated, KDL.Rotation_Quaternion; simpl. f_equal; ring.
Qed.

Lemma length2_negated (q : tf.Quaternion) : tf.length2 (tf_negated q) = tf.length2 q.
Proof. unfold tf.length2, tf_negated; simpl. ring. Qed.

Lemma not_normalized_negated (q : tf.Quaternion) :
  tf.not_normalized (tf_negated q) = tf.not_normalized q.
Proof. unfold tf.not_normalized. rewrite length2_negated. reflexivity. Qed.

Lemma normalize_negated (q : tf.Quaternion) :
  tf.normalize (tf_negated q) = option_map tf_negated (tf.normalize q).
Proof.
  unfold tf.normalize. cbv zeta. rewrite length2_negated.
  destruct (Req_dec_T (tf.length2 q) 0); [reflexivity|].
  cbn [option_map]. unfold tf_negated; simpl. do 2 f_equal; ring.
Qed.

Lemma mul_negated (a b : tf.Quaternion) :
  tf.mul a (tf_negated b) = tf_negated (tf.mul a b).
Proof. unfold tf.mul, tf_negated; simpl. f_equal; ring. Qed.

Lemma mul_nan_negated (a : tf.Quaternion) (b : option tf.Quaternion) :
  tf.mul_nan a (option_map tf_negated b) = option_map tf_negated (tf.mul_nan a b).
Proof.
  destruct b as [b|]; [|reflexivity].
  cbn [option_map tf.mul_nan]. rewrite mul_negated. reflexivity.
Qed.

Lemma of_msg_negated (o : geometry_msgs.Quaternion) :
  of_msg (negated o) = tf_negated (of_msg o).
Proof. reflexivity. Qed.

Lemma to_msg_negated (q : tf.Quaternion) :
  tf.to_msg (tf_negated q) = negated (tf.to_msg q).
Proof. reflexivity. Qed.

Lemma quaternionMsgToTF_negated (o : geometry_msgs.Quaternion) :
  fst (tf.quaternionMsgToTF (negated o))
  = option_map tf_negated (fst (tf.quaternionMsgToTF o)).
Proof.
  unfold tf.quaternionMsgToTF. cbv zeta.
  fold (of_msg (negated o)). fold (of_msg o).
  rewrite of_msg_negated, not_normalized_negated.
  destruct (tf.not_normalized _); cbn [fst].
  - apply normalize_negated.
  - reflexivity.
Qed.

Lemma quaternionTFToMsg_negated (q : option tf.Quaternion) :
  fst (tf.quaternionTFToMsg (option_map tf_negated q))
  = option_map negated (fst (tf.quaternionTFToMsg q)).
Proof.
  destruct q as [q|]; [|reflexivity].
  cbn [option_map]. unfold tf.quaternionTFToMsg.
  rewrite not_normalized_negated.
  destruct (tf.not_normalized q); cbn [fst].
  - rewrite normalize_negated.
    destruct (tf.normalize q) as [n|]; reflexivity.
  - reflexivity.
Qed.

Lemma twist_orientation_negated (roll pitch yaw : R) (o : geometry_msgs.Quaternion) :
  twist_orientation roll pitch yaw (negated o)
  = option_map negated (twist_orientation roll pitch yaw o).
Proof.
  unfold twist_orientation.
  rewrite quaternionMsgToTF_negated, mul_nan_negated.
  apply quaternionTFToMsg_negated.
Qed.

Lemma twist_rotation_negated (roll pitch yaw : R) (o : geometry_msgs.Quaternion) :
  twist_rotation roll pitch yaw (negated o) = twist_rotation roll pitch yaw o.
Proof.
  unfold twist_rotation. rewrite twist_orientation_negated.
  destruct (twist_orientation roll pitch yaw o) as [q|]; [|reflexivity].
  cbn [option_map Rotation_Quaternion_nan].
  exact (rotation_of_negated q).
Qed.

(** X11: neither producer tells a quaternion from its negative.  A pose
    update with all four orientation signs changed has the effect of the
    pose update itself, and a twist gives the same target for a snapshot
    orientation and for its negative. *)
Theorem producers_ignore_quaternion_sign :
  forall (target : geometry_msgs.PoseStamped) (twist : geometry_msgs.Twist)
         (o : geometry_msgs.Quaternion) (c : CartesianMotionController Base),
    targetFrameCallback
      (with_orientation
         (negated (geometry_msgs.orientation (geometry_msgs.pose target))) target) c
    = targetFrameCallback target c
    /\ m_target_frame
         (state_after (targetTwistCallback twist
                         (with_snapshot_orientation (negated o) c)))
       = m_target_frame
           (state_after (targetTwistCallback twist
                           (with_snapshot_orientation o c))).
Proof.
  intros target twist o c. split.
  - destruct (string_dec (geometry_msgs.frame_id (geometry_msgs.header target))
                         (m_robot_base_link c)) as [Heq|Hne].
    + rewrite (targetFrameCallback_accept target c Heq).
      rewrite targetFrameCallback_accept by exact Heq.
      unfold frame_of, with_orientation;
        cbn [geometry_msgs.pose geometry_msgs.orientation geometry_msgs.position].
      rewrite rotation_of_negated. reflexivity.
    + rewrite (targetFrameCallback_reject target c Hne).
      rewrite targetFrameCallback_reject by exact Hne.
      reflexivity.
  - rewrite !targetTwistCallback_run; cbv zeta.
    unfold state_after, with_snapshot_orientation, with_orientation;
      cbn [fst snd m_target_frame current_pose geometry_msgs.pose
           geometry_msgs.orientation geometry_msgs.position].
    rewrite twist_rotation_negated. reflexivity.
Qed.

(** ** [init] *)

Lemma string_append_assoc (a b c : string) :
  ((a ++ b) ++ c)%string = (a ++ (b ++ c))%string.
Proof. induction a as [|ch a IH]; simpl; [reflexivity | rewrite IH; reflexivity]. Qed.

(** X12: [init] returns [true] whatever [Base::init] returned.  Without a
    string parameter [target_frame_topic] it takes the topic [target_frame]
    and warns once, naming the parameter and the default under the node's
    namespace; with the parameter it takes its value and does not warn.  In
    both cases it subscribes to that topic and to [/spacenav/twist] with
    queue size 3 and advertises [current_pose] with queue size 5, after the
    call of [Base::init] and in this order; what [m_target_frame_topic] held
    before does not matter. *)
Theorem init_wires_topics :
  forall (hw : Hardware) (nh : ros.NodeHandle) (b : Base) (old_topic : string),
    let r := init hw nh b old_topic in
    let wiring topic :=
      [Subscribe topic 3 TargetFrameCallback;
       Subscribe "/spacenav/twist" 3 TargetTwistCallback;
       Advertise "current_pose" 5] in
    init_result r = true
    /\ init_base r = snd (Base_init hw nh b)
    /\ (ros.getParam nh "target_frame_topic" = None ->
        m_target_frame_topic r = "target_frame"%string
        /\ init_trace r
           = CallInit
             :: WarnStream
                  ("Failed to load " ++ ros.getNamespace nh
                     ++ "/target_frame_topic from parameter server. Will default to: "
                     ++ ros.getNamespace nh ++ "/target_frame")%string
             :: wiring "target_frame"%string)
    /\ (forall value : string,
           ros.getParam nh "target_frame_topic" = Some value ->
           m_target_frame_topic r = value
           /\ init_trace r = CallInit :: wiring value).
Proof.
  intros hw nh b old_topic; cbv zeta. unfold init.
  destruct (Base_init hw nh b) as [ok b']. cbn [snd].
  destruct (ros.getParam nh "target_frame_topic") as [value|];
    cbn [init_result init_base m_target_frame_topic init_trace].
  - split; [reflexivity|]. split; [reflexivity|]. split; [discriminate|].
    intros value' Hv. injection Hv as <-. split; reflexivity.
  - split; [reflexivity|]. split; [reflexivity|]. split; [|discriminate].
    intros _. split; [reflexivity|].
    cbn [app]. do 2 f_equal.
    rewrite string_append_assoc. reflexivity.
Qed.

End Controller.

(** ** The reference implementation meets what the theorems ask for *)

#[local] Existing Instance Reference.controller_base.
#[local] Existing Instance Reference.numerics.
#[local] Existing Instance Reference.not_a_number.

Lemma Rltb_true (a b : R) : a < b -> Reference.Rltb a b = true.
Proof. intros H. unfold Reference.Rltb. destruct (Rlt_dec a b); [reflexivity | lra]. Qed.

Lemma Rltb_false (a b : R) : b <= a -> Reference.Rltb a b = false.
Proof. intros H. unfold Reference.Rltb. destruct (Rlt_dec a b); [lra | reflexivity]. Qed.

Lemma Reference_epsilon_pos : 0 < Reference.epsilon.
Proof. unfold Reference.epsilon. lra. Qed.

Lemma Norm_unit_x : KDL.Norm (KDL.mkVector 1 0 0) = 1.
Proof.
  unfold KDL.Norm; simpl.
  replace (1 * 1 + 0 * 0 + 0 * 0) with 1 by ring. apply sqrt_1.
Qed.

Lemma Norm_unit_z : KDL.Norm (KDL.mkVector 0 0 1) = 1.
Proof.
  unfold KDL.Norm; simpl.
  replace (0 * 0 + 0 * 0 + 1 * 1) with 1 by ring. apply sqrt_1.
Qed.

Lemma Norm_Zero : KDL.Norm KDL.Vector_Zero = 0.
Proof.
  unfold KDL.Norm, KDL.Vector_Zero; simpl.
  replace (0 * 0 + 0 * 0 + 0 * 0) with 0 by ring. apply sqrt_0.
Qed.

(** [Normalize] always returns a unit vector. *)
Lemma Reference_Normalize_unit (v : KDL.Vector) :
  KDL.Norm (fst (Reference.Normalize v)) = 1.
Proof.
  unfold Reference.Normalize. cbv zeta.
  unfold Reference.Rltb. destruct (Rlt_dec (KDL.Norm v) Reference.epsilon) as [Hlt|Hge].
  - apply Norm_unit_x.
  - pose proof Reference_epsilon_pos as He.
    assert (Hn : 0 < KDL.Norm v) by lra.
    simpl. unfold KDL.Norm in *; simpl.
    set (S := KDL.x v * KDL.x v + KDL.y v * KDL.y v + KDL.z v * KDL.z v) in *.
    assert (HS : 0 <= S) by (subst S; nra).
    replace (KDL.x v / sqrt S * (KDL.x v / sqrt S)
             + KDL.y v / sqrt S * (KDL.y v / sqrt S)
             + KDL.z v / sqrt S * (KDL.z v / sqrt S))
      with (S / (sqrt S * sqrt S)).
    + rewrite (sqrt_sqrt S HS).
      replace (S / S) with 1; [apply sqrt_1|].
      field. intros HS0. rewrite HS0, sqrt_0 in Hn. lra.
    + subst S. field. lra.
Qed.

(** For the zero vector it reports 0, and no division is evaluated. *)
Lemma Reference_Normalize_Zero :
  Reference.Normalize KDL.Vector_Zero = (KDL.mkVector 1 0 0, 0).
Proof.
  unfold Reference.Normalize. cbv zeta.
  rewrite Norm_Zero, (Rltb_true 0 _ Reference_epsilon_pos). reflexivity.
Qed.

(** For the identity it reports the Z axis and angle 0. *)
Lemma Reference_GetRotAngle_Identity (axis : KDL.Vector) :
  Reference.GetRotAngle KDL.Rotation_Identity axis = (KDL.mkVector 0 0 1, 0).
Proof.
  unfold Reference.GetRotAngle, KDL.Rotation_Identity; simpl.
  pose proof Reference_epsilon_pos as He.
  replace (0 - 0) with 0 by ring. replace (0 + 0) with 0 by ring.
  replace (1 + 1 + 1 - 3) with 0 by ring.
  rewrite Rabs_R0.
  rewrite (Rltb_true 0 Reference.epsilon He).
  rewrite (Rltb_true 0 (Reference.epsilon * 10)) by lra.
  reflexivity.
Qed.

(** Away from the symmetric matrices the axis it returns has length 1. *)
Lemma Reference_GetRotAngle_regular (a : KDL.Rotation) (axis : KDL.Vector) :
  Reference.epsilon <= Rabs (KDL.Yx a - KDL.Xy a) ->
  KDL.Norm (fst (Reference.GetRotAngle a axis)) = 1.
Proof.
  intros Hasym. unfold Reference.GetRotAngle. cbv zeta.
  rewrite (Rltb_false _ _ Hasym). simpl.
  apply Reference_Normalize_unit.
Qed.











Lemma quarter_turn_orthonormal :
  KDL.Rotation_mul Reference.quarter_turn (KDL.Rotation_Inverse Reference.quarter_turn)
  = KDL.Rotation_Identity.
Proof.
  unfold KDL.Rotation_mul, KDL.Rotation_Inverse, KDL.Rotation_Identity,
    Reference.quarter_turn; simpl.
  f_equal; ring.
Qed.

(** ** A run of [computeMotionError]

    The solver reports the identity frame; the target is a quarter turn about
    Z at (3, 0, 4).  The angle (a quarter turn) and the distance (5) are both
    clamped to 1: the error is the unit direction followed by the unit
    axis. *)

Lemma quarter_turn_error_rotation :
  KDL.Rotation_mul Reference.quarter_turn (KDL.Rotation_Inverse KDL.Rotation_Identity)
  = Reference.quarter_turn.
Proof.
  unfold KDL.Rotation_mul, KDL.Rotation_Inverse, KDL.Rotation_Identity,
    Reference.quarter_turn; simpl.
  f_equal; ring.
Qed.

Lemma Reference_GetRotAngle_quarter_turn (axis : KDL.Vector) :
  Reference.GetRotAngle Reference.quarter_turn axis = (KDL.mkVector 0 0 1, PI / 2).
Proof.
  unfold Reference.GetRotAngle. cbv zeta.
  rewrite (Rltb_false (Rabs _) Reference.epsilon).
  2:{ simpl. replace (-1 - 1) with (- 2) by ring.
      rewrite Rabs_left by lra. unfold Reference.epsilon. lra. }
  cbn [andb]. simpl KDL.Xx. simpl KDL.Yy. simpl KDL.Zz.
  replace ((0 + 0 + 1 - 1) / 2) with 0 by field.
  rewrite (Rmin_right 1 0) by lra. rewrite (Rmax_right (-1) 0) by lra.
  rewrite acos_0.
  unfold Reference.Normalize. cbv zeta.
  set (q := Reference.quarter_turn).
  assert (Hn : KDL.Norm (KDL.mkVector (KDL.Yz q - KDL.Zy q) (KDL.Zx q - KDL.Xz q)
                                      (KDL.Xy q - KDL.Yx q)) = 2).
  { unfold KDL.Norm; simpl. apply sqrt_lem_1; lra. }
  rewrite Hn.
  rewrite (Rltb_false 2 Reference.epsilon) by (unfold Reference.epsilon; lra).
  simpl. f_equal. f_equal; field.
Qed.

Lemma Reference_Normalize_3_0_4 :
  Reference.Normalize (KDL.Vector_sub (KDL.mkVector 3 0 4) KDL.Vector_Zero)
  = (KDL.mkVector (3 / 5) 0 (4 / 5), 5).
Proof.
  unfold Reference.Normalize. cbv zeta.
  assert (Hn : KDL.Norm (KDL.Vector_sub (KDL.mkVector 3 0 4) KDL.Vector_Zero) = 5).
  { unfold KDL.Norm; simpl. apply sqrt_lem_1; lra. }
  rewrite Hn.
  rewrite (Rltb_false 5 Reference.epsilon) by (unfold Reference.epsilon; lra).
  simpl. f_equal. f_equal; field.
Qed.

Lemma clamp_above (v lo hi : R) : lo <= hi -> hi < v -> clamp v lo hi = hi.
Proof.
  intros Hlh Hv. unfold clamp.
  destruct (Rlt_dec v lo); [lra|].
  destruct (Rlt_dec hi v); [reflexivity | lra].
Qed.

Example computeMotionError_quarter_turn :
  let target := KDL.mkFrame Reference.quarter_turn (KDL.mkVector 3 0 4) in
  let c := Reference.controller_at KDL.Frame_Identity target in
  result (computeMotionError (mkTime 0 0) c)
  = ctrl.mkVector6D (3 / 5) 0 (4 / 5) 0 0 1.
Proof.
  intros target c.
  rewrite computeMotionError_result. unfold spec_motion_error. cbv zeta.
  change (getEndEffectorPose (base c)) with KDL.Frame_Identity.
  change (m_target_frame c) with target.
  change (KDL.M target) with Reference.quarter_turn.
  change (KDL.p target) with (KDL.mkVector 3 0 4).
  change (KDL.M KDL.Frame_Identity) with KDL.Rotation_Identity.
  change (KDL.p KDL.Frame_Identity) with KDL.Vector_Zero.
  change (@GetRotAngle Reference.numerics) with Reference.GetRotAngle.
  change (@Normalize Reference.numerics) with Reference.Normalize.
  rewrite quarter_turn_error_rotation, Reference_GetRotAngle_quarter_turn,
    Reference_Normalize_3_0_4.
  cbn [fst snd].
  pose proof PI2_1 as Hpi.
  rewrite (clamp_above (PI / 2)) by (unfold max_angle; lra).
  rewrite (clamp_above 5) by (unfold max_distance; lra).
  unfold KDL.Vector_scale, max_angle, max_distance; simpl.
  f_equal; lra.
Qed.

(** ** The motion error with KDL's routines

    Bounds and degenerate cases depend on what [GetRotAngle] and
    [Normalize] return; the following are about [computeMotionError] with
    the routines of [Reference]. *)



(** ** The theorems at concrete inputs *)


(** Two runs with different clocks, snapshots and stored frames, but the
    same reported pose and the same target. *)
Lemma computeMotionError_deterministic_witness :
  let current := KDL.mkFrame KDL.Rotation_Identity (KDL.mkVector 1 1 1) in
  let target := KDL.mkFrame Reference.quarter_turn (KDL.mkVector 3 0 4) in
  let c1 := Reference.controller_at current target in
  let c2 := Reference.controller_with_snapshot current target
              (Reference.pose_message "base_link" 0 0 0 1) in
  getEndEffectorPose (base c1) = getEndEffectorPose (base c2)
  /\ m_target_frame c1 = m_target_frame c2
  /\ result (computeMotionError (mkTime 1 0) c1)
     = result (computeMotionError (mkTime 2 500) c2).
Proof.
  intros current target c1 c2.
  split; [reflexivity|]. split; [reflexivity|].
  apply (computeMotionError_deterministic
           (CB := Reference.controller_base) (KN := Reference.numerics)
           (mkTime 1 0) (mkTime 2 500) c1 c2);
    reflexivity.
Defined.

(** Starting with the solver reporting a quarter turn at (1, 2, 3). *)
Lemma starting_seeds_target_witness :
  let pose := KDL.mkFrame Reference.quarter_turn (KDL.mkVector 1 2 3) in
  let c := Reference.controller_at pose KDL.Frame_Identity in
  let started := state_after (starting (mkTime 5 0) c) in
  m_target_frame started = pose
  /\ KDL.Rotation_mul (KDL.M pose) (KDL.Rotation_Inverse (KDL.M pose))
     = KDL.Rotation_Identity
  /\ snd (Reference.GetRotAngle KDL.Rotation_Identity KDL.Vector_Zero) = 0
  /\ snd (Reference.Normalize KDL.Vector_Zero) = 0
  /\ result (computeMotionError (mkTime 5 1) started) = ctrl.Vector6D_Zero.
Proof.
  intros pose c started.
  destruct (starting_seeds_target
              (CB := Reference.controller_base) (KN := Reference.numerics)
              (mkTime 5 0) (mkTime 5 1) c) as (Htgt & _ & Hzero).
  assert (Hortho : KDL.Rotation_mul (KDL.M pose) (KDL.Rotation_Inverse (KDL.M pose))
                   = KDL.Rotation_Identity) by exact quarter_turn_orthonormal.
  assert (Hangle : snd (Reference.GetRotAngle KDL.Rotation_Identity KDL.Vector_Zero) = 0)
    by (rewrite Reference_GetRotAngle_Identity; reflexivity).
  assert (Hdist : snd (Reference.Normalize KDL.Vector_Zero) = 0)
    by (rewrite Reference_Normalize_Zero; reflexivity).
  split; [exact Htgt|]. split; [exact Hortho|].
  split; [exact Hangle|]. split; [exact Hdist|].
  apply (Hzero Hortho Hangle Hdist started); reflexivity.
Defined.


(** A pose in frame [world] is refused, one in [base_link] is taken. *)
Lemma targetFrameCallback_checks_frame_witness :
  let c := Reference.controller_at KDL.Frame_Identity KDL.Frame_Identity in
  let refused := Reference.pose_message "world" 0 0 0 1 in
  let taken := Reference.pose_message "base_link" 0 0 0 1 in
  ("world"%string <> m_robot_base_link c
   /\ state_after (targetFrameCallback refused c) = c
   /\ trace (targetFrameCallback refused c)
      = [WarnThrottle 3
           "Got target pose in wrong reference frame. Expected: base_link but got world"])
  /\ ("base_link"%string = m_robot_base_link c
      /\ m_target_frame (state_after (targetFrameCallback taken c))
         = frame_of (geometry_msgs.pose taken)
      /\ trace (targetFrameCallback taken c) = []).
Proof.
  intros c refused taken.
  assert (Hne : geometry_msgs.frame_id (geometry_msgs.header refused)
                <> m_robot_base_link c) by discriminate.
  assert (Heq : geometry_msgs.frame_id (geometry_msgs.header taken)
                = m_robot_base_link c) by reflexivity.
  destruct (targetFrameCallback_checks_frame refused c) as (Hrej & _).
  destruct (targetFrameCallback_checks_frame taken c) as (_ & Hacc).
  destruct (Hrej Hne) as (Hs & _ & Ht).
  destruct (Hacc Heq) as (Hf & _ & Hn).
  split.
  - split; [exact Hne|]. split; [exact Hs | exact Ht].
  - split; [exact Heq|]. split; [exact Hf | exact Hn].
Defined.








(** ** Further theorems at concrete inputs *)

Lemma Reference_GetQuaternion_Identity :
  Reference.GetQuaternion KDL.Rotation_Identity = (0, 0, 0, 1).
Proof.
  unfold Reference.GetQuaternion. cbv zeta.
  cbn [KDL.Rotation_Identity KDL.Xx KDL.Yy KDL.Zz KDL.Yx KDL.Zx KDL.Xy KDL.Zy
       KDL.Xz KDL.Yz].
  rewrite (Rltb_true _ (1 + 1 + 1)) by lra.
  replace (1 + 1 + 1 + 1) with (2 * 2) by ring.
  rewrite sqrt_square by lra.
  repeat f_equal; lra.
Qed.

(** An iteration count of -3: the joint commands are written and nothing
    else happens. *)
Lemma update_without_iterations_witness :
  let c := Reference.controller_iterating (-3) KDL.Frame_Identity
             (KDL.mkFrame Reference.quarter_turn (KDL.mkVector 3 0 4)) in
  (m_iterations c <= 0)%Z
  /\ trace (update PositionJointInterface (fun _ => mkTime 0 0) c)
     = [CallWriteJointControlCmds]
  /\ m_current_frame
       (state_after (update PositionJointInterface (fun _ => mkTime 0 0) c))
     = m_current_frame c.
Proof.
  intros c.
  assert (Hn : (m_iterations c <= 0)%Z) by (simpl; lia).
  split; [exact Hn|].
  rewrite (update_without_iterations
             (CB := Reference.controller_base) (KN := Reference.numerics)
             (fun _ => mkTime 0 0) c Hn).
  split; reflexivity.
Defined.

(** The velocity specialisation makes one pass: the stored frame is the pose
    of before the step. *)
Lemma update_stores_frame_before_last_step_witness :
  let c := Reference.controller_at KDL.Frame_Identity
             (KDL.mkFrame Reference.quarter_turn (KDL.mkVector 3 0 4)) in
  passes VelocityJointInterface c = 1%nat
  /\ m_current_frame
       (state_after (update VelocityJointInterface (fun _ => mkTime 0 0) c))
     = KDL.Frame_Identity.
Proof.
  intros c.
  assert (Hp : passes VelocityJointInterface c = 1%nat) by reflexivity.
  split; [exact Hp|].
  destruct (update_stores_frame_before_last_step
              (CB := Reference.controller_base) (KN := Reference.numerics)
              VelocityJointInterface (fun _ => mkTime 0 0) c 0 Hp) as (Hf & _).
  exact Hf.
Defined.

(** Ten iterations with the solver at the target, a quarter turn at
    (1, 2, 3). *)
Lemma update_holds_at_target_witness :
  let pose := KDL.mkFrame Reference.quarter_turn (KDL.mkVector 1 2 3) in
  let c := Reference.controller_at pose pose in
  getEndEffectorPose (base c) = m_target_frame c
  /\ KDL.Rotation_mul (KDL.M pose) (KDL.Rotation_Inverse (KDL.M pose))
     = KDL.Rotation_Identity
  /\ snd (Reference.GetRotAngle KDL.Rotation_Identity KDL.Vector_Zero) = 0
  /\ snd (Reference.Normalize KDL.Vector_Zero) = 0
  /\ (forall b : Reference.Solver,
         Reference.end_effector b = pose ->
         Reference.end_effector
           (Reference.advance ctrl.Vector6D_Zero internal_period b) = pose)
  /\ Forall (fun error => error = ctrl.Vector6D_Zero)
            (errors_of (trace (update PositionJointInterface
                                 (fun _ => mkTime 0 0) c))).
Proof.
  intros pose c.
  assert (Hat : getEndEffectorPose (base c) = m_target_frame c) by reflexivity.
  assert (Hangle : snd (Reference.GetRotAngle KDL.Rotation_Identity KDL.Vector_Zero) = 0)
    by (rewrite Reference_GetRotAngle_Identity; reflexivity).
  assert (Hdist : snd (Reference.Normalize KDL.Vector_Zero) = 0)
    by (rewrite Reference_Normalize_Zero; reflexivity).
  assert (Hstay : forall b : Reference.Solver,
             Reference.end_effector b = pose ->
             Reference.end_effector
               (Reference.advance ctrl.Vector6D_Zero internal_period b) = pose).
  { intros [f] Hf. simpl in Hf. subst f.
    unfold Reference.advance, pose; simpl. f_equal. f_equal; ring. }
  split; [exact Hat|]. split; [exact quarter_turn_orthonormal|].
  split; [exact Hangle|]. split; [exact Hdist|]. split; [exact Hstay|].
  exact (proj1 (update_holds_at_target
                  (CB := Reference.controller_base) (KN := Reference.numerics)
                  PositionJointInterface (fun _ => mkTime 0 0) c
                  Hat quarter_turn_orthonormal Hangle Hdist Hstay)).
Defined.

(** A pose update in the base frame after a twist. *)
Lemma last_producer_wins_witness :
  let c := Reference.controller_with_snapshot KDL.Frame_Identity KDL.Frame_Identity
             (Reference.pose_message "" 0 0 0 1) in
  let t1 := geometry_msgs.mkTwist (geometry_msgs.mkVector3 1 0 0)
                                  (geometry_msgs.mkVector3 0 0 0) in
  let m2 := Reference.pose_message "base_link" 0 0 0.6 0.8 in
  geometry_msgs.frame_id (geometry_msgs.header m2) = m_robot_base_link c
  /\ state_after (targetFrameCallback m2 (state_after (targetTwistCallback t1 c)))
     = state_after (targetFrameCallback m2 c).
Proof.
  intros c t1 m2.
  assert (Heq : geometry_msgs.frame_id (geometry_msgs.header m2)
                = m_robot_base_link c) by reflexivity.
  split; [exact Heq|].
  destruct (last_producer_wins c t1 t1 m2 m2) as (_ & _ & Hframe).
  exact (proj1 (Hframe Heq)).
Defined.

(** A twist after a cycle in which the solver reported the identity rotation
    at (1, 2, 3). *)
Lemma twist_after_cycle_witness :
  let sampled := KDL.mkFrame KDL.Rotation_Identity (KDL.mkVector 1 2 3) in
  let c := Reference.controller_at sampled
             (KDL.mkFrame Reference.quarter_turn (KDL.mkVector 3 0 4)) in
  let twist := geometry_msgs.mkTwist (geometry_msgs.mkVector3 0.5 0 0)
                                     (geometry_msgs.mkVector3 0 0 0.1) in
  Reference.GetQuaternion (KDL.M sampled) = (0, 0, 0, 1)
  /\ 0 * 0 + 0 * 0 + 0 * 0 + 1 * 1 = 1
  /\ KDL.Rotation_Quaternion 0 0 0 1 = KDL.M sampled
  /\ m_target_frame
       (state_after (targetTwistCallback twist
                       (state_after (computeMotionError (mkTime 0 0) c))))
     = KDL.mkFrame
         (KDL.Rotation_mul (KDL.Rotation_RPY 0 0 0.1) KDL.Rotation_Identity)
         (KDL.mkVector (1 + 0.5) (2 + 0) (3 + 0)).
Proof.
  intros sampled c twist.
  assert (Hq : Reference.GetQuaternion (KDL.M sampled) = (0, 0, 0, 1))
    by exact Reference_GetQuaternion_Identity.
  assert (Hunit : 0 * 0 + 0 * 0 + 0 * 0 + 1 * 1 = 1) by ring.
  assert (Hmat : KDL.Rotation_Quaternion 0 0 0 1 = KDL.M sampled).
  { unfold KDL.Rotation_Quaternion, sampled, KDL.Rotation_Identity; simpl.
    f_equal; ring. }
  split; [exact Hq|]. split; [exact Hunit|]. split; [exact Hmat|].
  exact (proj1 (twist_after_cycle
                  (CB := Reference.controller_base) (KN := Reference.numerics)
                  (mkTime 0 0) twist c 0 0 0 1 Hq Hunit Hmat)).
Defined.

(** The solver at the identity frame, the target a quarter turn about Z at
    (3, 0, 4): angle and distance are both beyond the bounds. *)
Lemma computeMotionError_magnitudes_witness :
  let target := KDL.mkFrame Reference.quarter_turn (KDL.mkVector 3 0 4) in
  let c := Reference.controller_at KDL.Frame_Identity target in
  let error_rotation :=
    KDL.Rotation_mul Reference.quarter_turn
                     (KDL.Rotation_Inverse KDL.Rotation_Identity) in
  let error_translation := KDL.Vector_sub (KDL.mkVector 3 0 4) KDL.Vector_Zero in
  let error := result (computeMotionError (mkTime 0 0) c) in
  KDL.Norm (fst (Reference.GetRotAngle error_rotation KDL.Vector_Zero)) = 1
  /\ 0 <= snd (Reference.GetRotAngle error_rotation KDL.Vector_Zero)
  /\ KDL.Norm (fst (Reference.Normalize error_translation)) = 1
  /\ 0 <= snd (Reference.Normalize error_translation)
  /\ KDL.Norm (ctrl.tail3 error) = Rmin (PI / 2) max_angle
  /\ KDL.Norm (ctrl.head3 error) = Rmin 5 max_distance.
Proof.
  intros target c error_rotation error_translation error.
  assert (Hrot : Reference.GetRotAngle error_rotation KDL.Vector_Zero
                 = (KDL.mkVector 0 0 1, PI / 2)).
  { unfold error_rotation. rewrite quarter_turn_error_rotation.
    apply Reference_GetRotAngle_quarter_turn. }
  assert (Htrans : Reference.Normalize error_translation
                   = (KDL.mkVector (3 / 5) 0 (4 / 5), 5))
    by exact Reference_Normalize_3_0_4.
  assert (Haxis : KDL.Norm (fst (Reference.GetRotAngle error_rotation KDL.Vector_Zero))
                  = 1) by (rewrite Hrot; exact Norm_unit_z).
  assert (Hangle : 0 <= snd (Reference.GetRotAngle error_rotation KDL.Vector_Zero)).
  { rewrite Hrot. cbn [snd]. pose proof PI2_1. lra. }
  assert (Hdir : KDL.Norm (fst (Reference.Normalize error_translation)) = 1)
    by apply Reference_Normalize_unit.
  assert (Hdist : 0 <= snd (Reference.Normalize error_translation))
    by (rewrite Htrans; cbn [snd]; lra).
  destruct (computeMotionError_magnitudes
              (CB := Reference.controller_base) (KN := Reference.numerics)
              (mkTime 0 0) c Haxis Hangle Hdir Hdist) as (Hr & Ht & _).
  split; [exact Haxis|]. split; [exact Hangle|].
  split; [exact Hdir|]. split; [exact Hdist|].
  split.
  - change (PI / 2) with (snd (KDL.mkVector 0 0 1, PI / 2)).
    rewrite <- Hrot. exact Hr.
  - change 5 with (snd (KDL.mkVector (3 / 5) 0 (4 / 5), 5)).
    rewrite <- Htrans. exact Ht.
Defined.

(** A base class whose [init] fails, once without and once with the
    parameter. *)
Lemma init_wires_topics_witness :
  let solver := Reference.mkSolver KDL.Frame_Identity in
  let without := init (BI := Reference.failing_init) tt
                      Reference.node_without_topic solver "" in
  let with_value := init (BI := Reference.failing_init) tt
                         Reference.node_with_topic solver "" in
  fst (Base_init (ControllerBaseInit := Reference.failing_init) tt
                 Reference.node_without_topic solver) = false
  /\ init_result without = true
  /\ (ros.getParam Reference.node_without_topic "target_frame_topic" = None
      /\ m_target_frame_topic without = "target_frame"%string)
  /\ (ros.getParam Reference.node_with_topic "target_frame_topic" = Some "goal"%string
      /\ m_target_frame_topic with_value = "goal"%string
      /\ init_trace with_value
         = [CallInit; Subscribe "goal" 3 TargetFrameCallback;
            Subscribe "/spacenav/twist" 3 TargetTwistCallback;
            Advertise "current_pose" 5]).
Proof.
  intros solver without with_value.
  destruct (init_wires_topics (BI := Reference.failing_init) tt
              Reference.node_without_topic solver "") as (Hok & _ & Hnone & _).
  destruct (init_wires_topics (BI := Reference.failing_init) tt
              Reference.node_with_topic solver "") as (_ & _ & _ & Hsome).
  split; [reflexivity|]. split; [exact Hok|].
  split.
  - split; [reflexivity | exact (proj1 (Hnone eq_refl))].
  - split; [reflexivity|]. exact (Hsome "goal"%string eq_refl).
Defined.
